(** * MapSummaryGeneration: a shallow embedding and its verified properties

    The development follows [map-summary-generation.ts] in the revision
    with date ranges and the zero-entry fallback; from the older copy of
    the file it takes [generateFallbackSummary], under [Legacy].
    Conventions:

    - text is a [string] of ASCII characters; [toLowerCase] maps 'A'..'Z'
      to 'a'..'z' and [length] counts characters;
    - a JavaScript [number] used as a count (frequency, attempt numbers,
      retry budget, delays in ms) is a [Z]; a pain score is a [Q] with exact
      arithmetic (JavaScript agrees on integers and halves of moderate
      size, which is what medians of integer scores are);
    - an optional field of an options object is an [option];
    - the object [PainDataMaps] used as a dictionary is a plain object: its
      own properties are a [gmap string _], and a name it does not own is
      looked up in [Object.prototype], as [maps[period]] does;
    - a call either returns a value or throws an [Error] with a message;
    - the text-generation service is an oracle answering the k-th request;
      the orchestrator threads the number of requests and the delays it
      waited through a small state-and-exception monad. *)

From Stdlib Require Import ZArith QArith Qround List Ascii Bool Lia.
From Stdlib Require Import Sorted Permutation DecimalString.
From Stdlib Require String.
From stdpp Require Import gmap strings.

Local Open Scope Z_scope.

(** ** JavaScript strings *)

Definition isUpper (c : ascii) : bool :=
  let n := nat_of_ascii c in (Nat.leb 65 n && Nat.leb n 90)%bool.

Definition lowerChar (c : ascii) : ascii :=
  if isUpper c then ascii_of_nat (nat_of_ascii c + 32) else c.

(** [s.toLowerCase()] *)
Fixpoint toLowerCase (s : string) : string :=
  match s with
  | EmptyString => EmptyString
  | String c s' => String (lowerChar c) (toLowerCase s')
  end.

(** [s.startsWith(p)] *)
Fixpoint startsWith (s p : string) {struct p} : bool :=
  match p, s with
  | EmptyString, _ => true
  | String _ _, EmptyString => false
  | String a p', String b s' => (Ascii.eqb a b && startsWith s' p')%bool
  end.

(** [s.includes(sub)]: [sub] occurs somewhere in [s]. *)
Fixpoint includes (s sub : string) : bool :=
  (startsWith s sub ||
   match s with
   | EmptyString => false
   | String _ s' => includes s' sub
   end)%bool.

(** [s.length] *)
Definition jsLength (s : string) : Z := Z.of_nat (String.length s).

(** [parts.join(sep)] *)
Fixpoint join (sep : string) (parts : list string) : string :=
  match parts with
  | [] => ""
  | [p] => p
  | p :: rest => p +:+ sep +:+ join sep rest
  end.

(** White space removed by [trim] (ASCII part). *)
Definition isSpace (c : ascii) : bool :=
  let n := nat_of_ascii c in ((Nat.leb 9 n && Nat.leb n 13) || Nat.eqb n 32)%bool.

Fixpoint trimStart (s : string) : string :=
  match s with
  | EmptyString => EmptyString
  | String c s' => if isSpace c then trimStart s' else s
  end.

Fixpoint trimEnd (s : string) : string :=
  match s with
  | EmptyString => EmptyString
  | String c s' =>
      match trimEnd s' with
      | EmptyString => if isSpace c then EmptyString else String c EmptyString
      | t => String c t
      end
  end.

(** [s.trim()] *)
Definition trim (s : string) : string := trimEnd (trimStart s).

(** The double-quote character, as a one-character string. *)
Definition dquote : string := String (ascii_of_nat 34) EmptyString.

(** ** JavaScript numbers *)

(** [`${n}`] for an integer [n]. *)
Definition Z_toString (n : Z) : string := NilZero.string_of_int (Z.to_int n).

Fixpoint fracDigits (fuel : nat) (rem den : Z) : string :=
  match fuel with
  | O => ""
  | S k =>
      if rem =? 0 then ""
      else Z_toString (rem * 10 / den) +:+ fracDigits k (rem * 10 mod den) den
  end.

(** [`${x}`] for a score [x]: the integer part, then the digits of the
    fraction when there is one (7 prints as 7, 13/2 as 6.5). *)
Definition Q_toString (x : Q) : string :=
  let n := Qnum x in
  let d := Zpos (Qden x) in
  let r := Z.abs n mod d in
  (if n <? 0 then "-" else "") +:+ Z_toString (Z.abs n / d)
    +:+ (if r =? 0 then "" else "." +:+ fracDigits 17 r d).

(** [Math.round(x)]: nearest integer, halves towards plus infinity. *)
Definition Math_round (x : Q) : Z := Qfloor (x + (1 # 2))%Q.

(** [Array.prototype.sort(compare)]: a stable sort; [a] goes before [b]
    when [compare a b] is not positive. *)
Fixpoint insertBy {A} (compare : A -> A -> Q) (x : A) (l : list A) : list A :=
  match l with
  | [] => [x]
  | y :: l' =>
      if Qle_bool (compare x y) 0 then x :: y :: l' else y :: insertBy compare x l'
  end.

Fixpoint sortBy {A} (compare : A -> A -> Q) (l : list A) : list A :=
  match l with
  | [] => []
  | x :: l' => insertBy compare x (sortBy compare l')
  end.

(** [arr[i]] for an array of numbers, read inside its bounds. *)
Definition at_ (arr : list Q) (i : Z) : Q := nth (Z.to_nat i) arr 0%Q.

(** ** Data model *)

Record Date := { getTime : Z }.

Module BodyMap.
Record t := { region : string; painScore : Q; timestamp : Date }.
End BodyMap.

Record DateRange := { range_start : Date; range_end : Date }.

Module RegionSummary.
Record t := {
  region : string;
  period : string;
  frequency : Z;
  medianScore : Q;
  totalEntries : Z;
  dateRange : option DateRange
}.
End RegionSummary.

(** ** Statistics *)

(** [calculateMedian(sortedArray)] *)
Definition calculateMedian (sortedArray : list Q) : Q :=
  let length := Z.of_nat (List.length sortedArray) in
  if length =? 0 then 0%Q
  else
    let middle := length / 2 in
    if length mod 2 =? 0
    then ((at_ sortedArray (middle - 1) + at_ sortedArray middle) / 2)%Q
    else at_ sortedArray middle.

(** What a call does: it returns a value or throws an [Error] with a
    message. *)
Inductive Outcome (A : Type) :=
| Returned (a : A)
| Thrown (message : string).
Arguments Returned {A} a.
Arguments Thrown {A} message.

(** The names every plain object inherits from [Object.prototype]. *)
Definition objectPrototypeNames : list string :=
  [ "constructor"; "toString"; "toLocaleString"; "valueOf"; "hasOwnProperty";
    "isPrototypeOf"; "propertyIsEnumerable"; "__proto__"; "__defineGetter__";
    "__defineSetter__"; "__lookupGetter__"; "__lookupSetter__" ].

(** What [maps[period]] evaluates to: the array stored under an own key,
    a member inherited from [Object.prototype] (a function, or the
    prototype itself for [__proto__]), or [undefined]. *)
Inductive PropertyValue :=
| EntryArray (entries : list BodyMap.t)
| InheritedMember
| Undefined.

(** [maps[period]] *)
Definition getProperty (maps : gmap string (list BodyMap.t)) (period : string)
    : PropertyValue :=
  match maps !! period with
  | Some entries => EntryArray entries
  | None =>
      if existsb (String.eqb period) objectPrototypeNames
      then InheritedMember else Undefined
  end.

(** [value || []]: only [undefined] is falsy here. *)
Definition orEmptyArray (value : PropertyValue) : PropertyValue :=
  match value with
  | Undefined => EntryArray []
  | _ => value
  end.

(** The body of [sumRegion] from the length test on: the statistics of the
    filtered entries [regionData]. *)
Definition regionStatistics (period region : string) (regionData : list BodyMap.t)
    : RegionSummary.t :=
  if Z.of_nat (List.length regionData) =? 0 then
    {| RegionSummary.region := region;
       RegionSummary.period := period;
       RegionSummary.frequency := 0;
       RegionSummary.medianScore := 0%Q;
       RegionSummary.totalEntries := 0;
       RegionSummary.dateRange := None |}
  else
    let frequency := Z.of_nat (List.length regionData) in
    let scores :=
      sortBy (fun a b => a - b)%Q (map BodyMap.painScore regionData) in
    let medianScore := calculateMedian scores in
    let timestamps :=
      sortBy (fun a b => inject_Z (getTime a - getTime b))
             (map BodyMap.timestamp regionData) in
    let dateRange :=
      match timestamps with
      | [] => None
      | first :: _ =>
          Some {| range_start := first; range_end := List.last timestamps first |}
      end in
    {| RegionSummary.region := region;
       RegionSummary.period := period;
       RegionSummary.frequency := frequency;
       RegionSummary.medianScore := medianScore;
       RegionSummary.totalEntries := Z.of_nat (List.length regionData);
       RegionSummary.dateRange := dateRange |}.

(** [sumRegion(period, maps, region)].  [periodData.filter] is a call of
    the array method; on an inherited member, which has no [filter], and
    on [undefined] the call throws a [TypeError]. *)
Definition sumRegion (period : string) (maps : gmap string (list BodyMap.t))
    (region : string) : Outcome RegionSummary.t :=
  match orEmptyArray (getProperty maps period) with
  | EntryArray periodData =>
      let regionData :=
        List.filter (fun entry => String.eqb (BodyMap.region entry) region)
                    periodData in
      Returned (regionStatistics period region regionData)
  | InheritedMember => Thrown "periodData.filter is not a function"
  | Undefined => Thrown "Cannot read properties of undefined (reading 'filter')"
  end.

(** ** Output validation *)

Record ValidationResult := {
  isValid : bool;
  errors : list string;
  warnings : list string
}.

Record RegionCheck := { valid : bool; error : option string }.

Record NumericalCheck := { frequencyFound : bool; medianFound : bool }.

Record MedicalAdviceCheck := { found : bool; phrases : list string }.

(** The catalogue of [validateRegionMention]. *)
Definition bodyRegions : list string :=
  [ "lower back"; "upper back"; "back"; "neck"; "shoulder"; "shoulders";
    "arm"; "arms"; "elbow"; "elbows"; "wrist"; "wrists"; "hand"; "hands";
    "hip"; "hips"; "knee"; "knees"; "ankle"; "ankles"; "foot"; "feet";
    "leg"; "legs"; "chest"; "abdomen"; "head"; "jaw"; "face" ].

(** The callback of [bodyRegions.filter] in [validateRegionMention]. *)
Definition isHallucinated (summaryLower expectedRegionLower region : string) : bool :=
  let regionLower := toLowerCase region in
  if (includes expectedRegionLower regionLower
      || includes regionLower expectedRegionLower)%bool
  then false
  else includes summaryLower regionLower.

(** [validateRegionMention(summary, expectedRegion)] *)
Definition validateRegionMention (summary expectedRegion : string) : RegionCheck :=
  let summaryLower := toLowerCase summary in
  let expectedRegionLower := toLowerCase expectedRegion in
  let expectedMentioned := includes summaryLower expectedRegionLower in
  let hallucinatedRegions :=
    List.filter (isHallucinated summaryLower expectedRegionLower) bodyRegions in
  if (negb expectedMentioned
      && (Z.of_nat (List.length hallucinatedRegions) =? 0))%bool
  then {| valid := true; error := None |}
  else if Z.of_nat (List.length hallucinatedRegions) >? 0
  then {| valid := false;
          error := Some ("Hallucinated region(s) detected: " +:+ dquote
                         +:+ join (dquote +:+ ", " +:+ dquote) hallucinatedRegions
                         +:+ dquote +:+ " (expected only " +:+ dquote
                         +:+ expectedRegion +:+ dquote +:+ ")") |}
  else {| valid := true; error := None |}.

Definition numberWords : list string :=
  [ "zero"; "one"; "two"; "three"; "four"; "five"; "six"; "seven"; "eight";
    "nine"; "ten" ].

(** [numberWords[i]]: [None] stands for [undefined]. *)
Definition numberWordAt (i : Z) : option string :=
  if i <? 0 then None else numberWords !! Z.to_nat i.

(** [.filter(Boolean)] on an array of strings and [undefined]s: drops
    [undefined] and the empty string. *)
Fixpoint filterBoolean (l : list (option string)) : list string :=
  match l with
  | [] => []
  | None :: l' => filterBoolean l'
  | Some s :: l' =>
      if String.eqb s "" then filterBoolean l' else s :: filterBoolean l'
  end.

(** [validateNumericalData(summary, frequency, medianScore)].  The source
    also builds a [frequencyPattern] regular expression that it never
    applies; it has no effect on the result. *)
Definition validateNumericalData (summary : string) (frequency : Z)
    (medianScore : Q) : NumericalCheck :=
  let summaryLower := toLowerCase summary in
  let frequencyVariations :=
    filterBoolean
      [ Some (Z_toString frequency);
        Some (Z_toString frequency +:+ " time");
        Some (Z_toString frequency +:+ " entr");
        Some (Z_toString frequency +:+ " occurrence");
        Some (Z_toString frequency +:+ " instance");
        numberWordAt frequency ] in
  let frequencyFound :=
    existsb (fun variation => includes summaryLower (toLowerCase variation))
            frequencyVariations in
  let medianInt := Math_round medianScore in
  let medianPatterns :=
    filterBoolean
      [ Some (Q_toString medianScore);
        Some (Z_toString medianInt);
        Some (Q_toString medianScore +:+ "/10");
        Some (Z_toString medianInt +:+ "/10");
        Some (Q_toString medianScore +:+ " out of 10");
        Some (Z_toString medianInt +:+ " out of 10");
        numberWordAt medianInt ] in
  let medianFound :=
    existsb (fun pattern => includes summaryLower (toLowerCase pattern))
            medianPatterns in
  {| frequencyFound := frequencyFound; medianFound := medianFound |}.

(** *** The regular expressions of the consistency check

    Every pattern of the source is a word between two [\b] assertions,
    compiled with the [i] flag.  The model parses a pattern into literal
    characters and word-boundary assertions and searches the text for a
    position where the whole pattern matches. *)

Inductive reAtom :=
| ReWordBoundary
| ReChar (c : ascii).

Definition isWordChar (c : ascii) : bool :=
  let n := nat_of_ascii c in
  ((Nat.leb 48 n && Nat.leb n 57) || (Nat.leb 65 n && Nat.leb n 90)
   || Nat.eqb n 95 || (Nat.leb 97 n && Nat.leb n 122))%bool.

Definition isBackslash (c : ascii) : bool := Nat.eqb (nat_of_ascii c) 92.

Definition isLetterB (c : ascii) : bool := Nat.eqb (nat_of_ascii c) 98.

Fixpoint reParse (pattern : string) : list reAtom :=
  match pattern with
  | EmptyString => []
  | String c rest =>
      match rest with
      | String d rest' =>
          if (isBackslash c && isLetterB d)%bool
          then ReWordBoundary :: reParse rest'
          else ReChar c :: reParse rest
      | EmptyString => [ReChar c]
      end
  end.

Definition wordBefore (prev : option ascii) : bool :=
  match prev with Some c => isWordChar c | None => false end.

Definition wordAhead (s : string) : bool :=
  match s with String c _ => isWordChar c | EmptyString => false end.

(** Does the pattern match at this position?  [prev] is the character just
    before the position, [s] the text from the position on. *)
Fixpoint reMatchHere (atoms : list reAtom) (prev : option ascii) (s : string) : bool :=
  match atoms with
  | [] => true
  | ReWordBoundary :: atoms' =>
      (xorb (wordBefore prev) (wordAhead s) && reMatchHere atoms' prev s)%bool
  | ReChar c :: atoms' =>
      match s with
      | String d s' =>
          (Ascii.eqb (lowerChar c) (lowerChar d)
           && reMatchHere atoms' (Some d) s')%bool
      | EmptyString => false
      end
  end.

Fixpoint reSearch (atoms : list reAtom) (prev : option ascii) (s : string) : bool :=
  (reMatchHere atoms prev s ||
   match s with
   | String d s' => reSearch atoms (Some d) s'
   | EmptyString => false
   end)%bool.

(** [new RegExp(pattern, 'i').test(s)] *)
Definition RegExp_test (pattern s : string) : bool :=
  reSearch (reParse pattern) None s.

Module frequencyDescriptors.
Definition low : list string :=
  [ "\blow\b"; "\brare\b"; "\binfrequent\b"; "\boccasional\b"; "\bfew\b";
    "\bminimal\b" ].
Definition moderate : list string :=
  [ "\bmoderate\b"; "\bseveral\b"; "\bsome\b"; "\bregular\b" ].
Definition high : list string :=
  [ "\bhigh\b"; "\bfrequent\b"; "\boften\b"; "\bmany\b"; "\bnumerous\b";
    "\bconsiderable\b" ].
End frequencyDescriptors.

Module severityDescriptors.
Definition low : list string :=
  [ "\bmild\b"; "\bslight\b"; "\bminimal\b"; "\bminor\b" ].
Definition moderate : list string :=
  [ "\bmoderate\b"; "\bnoticeable\b"; "\bsignificant\b" ].
Definition high : list string :=
  [ "\bsevere\b"; "\bintense\b"; "\bextreme\b"; "\bmajor\b"; "\bsubstantial\b" ].
End severityDescriptors.

(** [for (const desc of descs) if (new RegExp(desc,'i').test(s)) { push; break }]:
    one warning when some pattern of the family matches. *)
Definition warnIfAny (descs : list string) (s warning : string) : list string :=
  if existsb (fun desc => RegExp_test desc s) descs then [warning] else [].

Definition frequencyWarning (frequency : Z) (band family : string) : string :=
  "Inconsistent frequency: frequency is " +:+ Z_toString frequency +:+ " ("
    +:+ band +:+ ") but summary uses " +:+ dquote +:+ family +:+ dquote
    +:+ " descriptor".

Definition severityWarning (medianScore : Q) (band family : string) : string :=
  "Inconsistent severity: median score is " +:+ Q_toString medianScore
    +:+ "/10 (" +:+ band +:+ ") but summary uses " +:+ dquote +:+ family
    +:+ dquote +:+ " descriptor".

(** [validateLogicalConsistency(summary, frequency, medianScore)] *)
Definition validateLogicalConsistency (summary : string) (frequency : Z)
    (medianScore : Q) : list string :=
  let summaryLower := toLowerCase summary in
  let frequencyPart :=
    if frequency <=? 2 then
      warnIfAny frequencyDescriptors.high summaryLower
                (frequencyWarning frequency "low" "high")
    else if frequency >=? 7 then
      warnIfAny frequencyDescriptors.low summaryLower
                (frequencyWarning frequency "high" "low")
    else [] in
  let severityPart :=
    if Qle_bool medianScore 3 then
      warnIfAny severityDescriptors.high summaryLower
                (severityWarning medianScore "mild" "severe")
    else if Qle_bool 7 medianScore then
      warnIfAny severityDescriptors.low summaryLower
                (severityWarning medianScore "severe" "mild")
    else [] in
  frequencyPart ++ severityPart.

Definition medicalAdvicePhrases : list string :=
  [ "should see a doctor"; "consult a physician"; "seek medical attention";
    "recommend treatment"; "diagnosis"; "prescribe"; "medication";
    "you should take"; "try this treatment"; "this indicates";
    "this suggests you have"; "you may have"; "likely suffering from";
    "probably have"; "could be a sign of" ].

(** [checkForMedicalAdvice(summary)] *)
Definition checkForMedicalAdvice (summary : string) : MedicalAdviceCheck :=
  let summaryLower := toLowerCase summary in
  let foundPhrases :=
    List.filter (fun phrase => includes summaryLower phrase) medicalAdvicePhrases in
  {| found := Z.of_nat (List.length foundPhrases) >? 0; phrases := foundPhrases |}.

(** [validateSummary(summary, region, frequency, medianScore, period)] *)
Definition validateSummary (summary region : string) (frequency : Z)
    (medianScore : Q) (period : string) : ValidationResult :=
  let regionValidation := validateRegionMention summary region in
  let errors1 :=
    if negb (valid regionValidation)
    then [default "undefined" (error regionValidation)] else [] in
  let numericalValidation := validateNumericalData summary frequency medianScore in
  let errors2 :=
    if negb (frequencyFound numericalValidation)
    then ["Missing frequency data: Expected mention of " +:+ Z_toString frequency
          +:+ " entries/occurrences"] else [] in
  let errors3 :=
    if negb (medianFound numericalValidation)
    then ["Missing median score data: Expected mention of score "
          +:+ Q_toString medianScore +:+ "/10"] else [] in
  let consistencyValidation :=
    validateLogicalConsistency summary frequency medianScore in
  let warnings1 :=
    if Z.of_nat (List.length consistencyValidation) >? 0
    then consistencyValidation else [] in
  let medicalAdviceCheck := checkForMedicalAdvice summary in
  let warnings2 :=
    if found medicalAdviceCheck
    then ["Possible medical advice detected: " +:+ dquote
          +:+ join (dquote +:+ ", " +:+ dquote) (phrases medicalAdviceCheck)
          +:+ dquote] else [] in
  let errors4 :=
    if jsLength summary <? 20
    then ["Summary too short (less than 20 characters)"] else [] in
  let warnings3 :=
    if jsLength summary >? 1000
    then ["Summary might be too verbose (over 1000 characters)"] else [] in
  let errors := errors1 ++ errors2 ++ errors3 ++ errors4 in
  let warnings := warnings1 ++ warnings2 ++ warnings3 in
  {| isValid := Z.of_nat (List.length errors) =? 0;
     errors := errors;
     warnings := warnings |}.

(** ** Fallback text *)

(** [getSeverityDescription(score)] *)
Definition getSeverityDescription (score : Q) : string :=
  if Qle_bool score 2 then "mild"
  else if Qle_bool score 4 then "moderate"
  else if Qle_bool score 6 then "moderate to severe"
  else if Qle_bool score 8 then "severe"
  else "very severe".

(** [generateFallbackSummary(period, region, frequency, medianScore)] *)
Definition generateFallbackSummary (period region : string) (frequency : Z)
    (medianScore : Q) : string :=
  if frequency =? 0 then
    "You haven't logged any pain data for your " +:+ toLowerCase region
      +:+ " during " +:+ toLowerCase period
      +:+ " yet. When you start tracking this region, your data will appear here."
  else
    let severity := getSeverityDescription medianScore in
    let frequencyDesc := if frequency =? 1 then "entry" else "entries" in
    "During " +:+ toLowerCase period +:+ ", you recorded "
      +:+ Z_toString frequency +:+ " pain " +:+ frequencyDesc +:+ " for your "
      +:+ toLowerCase region +:+ ", with a median pain level of "
      +:+ Q_toString medianScore +:+ "/10 (" +:+ severity
      +:+ "). This data helps track your pain patterns over time.".

(** [generateFallbackSummary] as the older copy of the module has it
    ([src/map-summary-generation.ts]): the same template, and no branch
    for frequency 0. *)
Module Legacy.
Definition generateFallbackSummary (period region : string) (frequency : Z)
    (medianScore : Q) : string :=
  let severity := getSeverityDescription medianScore in
  let frequencyDesc := if frequency =? 1 then "entry" else "entries" in
  "During " +:+ toLowerCase period +:+ ", you recorded "
    +:+ Z_toString frequency +:+ " pain " +:+ frequencyDesc +:+ " for your "
    +:+ toLowerCase region +:+ ", with a median pain level of "
    +:+ Q_toString medianScore +:+ "/10 (" +:+ severity
    +:+ "). This data helps track your pain patterns over time.".
End Legacy.

(** ** Configuration *)

Module Config.
Record t := {
  apiKey : string;
  maxRetries : option Z;
  retryDelay : option Z
}.
End Config.

Module SummaryOptions.
Record t := {
  maxRetries : option Z;
  retryDelay : option Z;
  fallbackEnabled : option bool;
  enableValidation : option bool
}.
(** [{}], the default value of the [options] parameter. *)
Definition empty : t :=
  {| maxRetries := None; retryDelay := None;
     fallbackEnabled := None; enableValidation := None |}.
End SummaryOptions.

(** The fields of a [MapSummaryGeneration] instance. *)
Module Generator.
Record t := {
  apiKey : string;
  maxRetries : Z;
  retryDelay : Z
}.
End Generator.

(** [x || d] on an optional number: [undefined] and [0] are falsy. *)
Definition orNumber (x : option Z) (d : Z) : Z :=
  match x with
  | Some n => if n =? 0 then d else n
  | None => d
  end.

(** [x !== false] on an optional boolean. *)
Definition notFalse (x : option bool) : bool :=
  match x with
  | Some false => false
  | _ => true
  end.

(** [new MapSummaryGeneration(config)] *)
Definition constructor (config : Config.t) : Generator.t :=
  {| Generator.apiKey := Config.apiKey config;
     Generator.maxRetries := orNumber (Config.maxRetries config) 3;
     Generator.retryDelay := orNumber (Config.retryDelay config) 1000 |}.

(** The attempt budget and the delay a call of [summariseWithAI] works with. *)
Definition effectiveMaxRetries (self : Generator.t) (options : SummaryOptions.t) : Z :=
  orNumber (SummaryOptions.maxRetries options) (Generator.maxRetries self).

Definition effectiveRetryDelay (self : Generator.t) (options : SummaryOptions.t) : Z :=
  orNumber (SummaryOptions.retryDelay options) (Generator.retryDelay self).

(** ** Orchestration *)

(** What the generation service answers to one request. *)
Inductive ServiceReply :=
| Reply (text : string)
| Failure (message : string).

(** What the orchestrator has done so far: requests sent to the service
    and the delays (ms) it waited, oldest first. *)
Record World := { requests : nat; waited : list Z }.

Definition initialWorld : World := {| requests := 0; waited := [] |}.

(** A computation returns or throws, and either way it leaves a world
    behind. *)
Definition M (A : Type) : Type := World -> Outcome A * World.

Definition ret {A} (a : A) : M A := fun w => (Returned a, w).

Definition throw {A} (message : string) : M A := fun w => (Thrown message, w).

Definition bind {A B} (m : M A) (k : A -> M B) : M B :=
  fun w =>
    match m w with
    | (Returned a, w') => k a w'
    | (Thrown message, w') => (Thrown message, w')
    end.

(** [try { m } catch (error) { handler(error.message) }] *)
Definition tryCatch {A} (m : M A) (handler : string -> M A) : M A :=
  fun w =>
    match m w with
    | (Returned a, w') => (Returned a, w')
    | (Thrown message, w') => handler message w'
    end.

Notation "'let!' x ':=' m 'in' k" := (bind m (fun x => k))
  (at level 10, x pattern, m at level 100, k at level 200).

(** [await this.delay(ms)] *)
Definition delay (ms : Z) : M unit :=
  fun w => (Returned tt, {| requests := requests w; waited := waited w ++ [ms] |}).

(** How one turn of the retry loop ends. *)
Inductive LoopStep :=
| Continue
| Return (summary : string).

Section Orchestrator.

(** The reply of the service to the k-th request (from 0).  The prompt is
    built once before the loop and sent unchanged with every request. *)
Variable service : nat -> ServiceReply.

(** [callGeminiAPI(prompt, config)]: one request; a blank reply is an error. *)
Definition callGeminiAPI : M string :=
  fun w =>
    let w' := {| requests := S (requests w); waited := waited w |} in
    match service (requests w) with
    | Reply response =>
        let text := trim response in
        if String.eqb text "" then (Thrown "Empty response from Gemini API", w')
        else (Returned text, w')
    | Failure message => (Thrown message, w')
    end.

Variable self : Generator.t.
Variables (period region : string) (frequency : Z) (medianScore : Q).
Variable options : SummaryOptions.t.

Let maxRetries := effectiveMaxRetries self options.
Let retryDelay := effectiveRetryDelay self options.
Let fallbackEnabled := notFalse (SummaryOptions.fallbackEnabled options).
Let enableValidation := notFalse (SummaryOptions.enableValidation options).

(** The [try] block of one attempt. *)
Definition tryBlock (attempt : Z) : M LoopStep :=
  let! summary := callGeminiAPI in
  if enableValidation then
    let validation := validateSummary summary region frequency medianScore period in
    if negb (isValid validation) then
      if ((Z.of_nat (List.length (errors validation)) >? 0)
          && (attempt <? maxRetries))%bool
      then let! _ := delay retryDelay in ret Continue
      else if ((Z.of_nat (List.length (errors validation)) >? 0)
               && fallbackEnabled)%bool
      then ret (Return (generateFallbackSummary period region frequency medianScore))
      else ret (Return summary)
    else ret (Return summary)
  else ret (Return summary).

(** The [catch] block of one attempt. *)
Definition catchBlock (attempt : Z) (message : string) : M LoopStep :=
  if attempt =? maxRetries then
    if fallbackEnabled
    then ret (Return (generateFallbackSummary period region frequency medianScore))
    else throw ("Failed to generate summary after " +:+ Z_toString maxRetries
                +:+ " attempts: " +:+ message)
  else let! _ := delay (retryDelay * attempt) in ret Continue.

(** [for (let attempt = ...; attempt <= maxRetries; attempt++) { ... }]
    followed by the final [throw]; [remaining] is the number of turns the
    loop condition still allows. *)
Fixpoint attemptLoop (remaining : nat) (attempt : Z) : M string :=
  match remaining with
  | O => throw "Unexpected error in summariseWithAI"
  | S remaining' =>
      let! step := tryCatch (tryBlock attempt) (catchBlock attempt) in
      match step with
      | Continue => attemptLoop remaining' (attempt + 1)
      | Return summary => ret summary
      end
  end.

(** [summariseWithAI(period, region, frequency, medianScore, config, options)] *)
Definition summariseWithAI : M string :=
  attemptLoop (Z.to_nat maxRetries) 1.

End Orchestrator.

(** [createMapSummaryGenerator(config)] *)
Definition createMapSummaryGenerator (config : Config.t) : Generator.t :=
  constructor config.

(** [generateQuickSummary(period, region, frequency, medianScore, config)]:
    a fresh instance and a call with the default options. *)
Definition generateQuickSummary (service : nat -> ServiceReply)
    (period region : string) (frequency : Z) (medianScore : Q)
    (config : Config.t) : M string :=
  let generator := constructor config in
  summariseWithAI service generator period region frequency medianScore
                  SummaryOptions.empty.


(** ** Specification vocabulary *)

(** [occursIn sub s]: the text [s] has [sub] as a contiguous part. *)
Definition occursIn (sub s : string) : Prop :=
  exists pre post, s = pre +:+ sub +:+ post.

(** The entries logged under [period] whose region is exactly [region]. *)
Definition matchingEntries (period : string) (maps : gmap string (list BodyMap.t))
    (region : string) : list BodyMap.t :=
  filter (fun entry => BodyMap.region entry = region) (default [] (maps !! period)).

(** The textbook median: sort the values in ascending order; an odd count
    gives the middle value, an even count the mean of the two middle ones. *)
Definition isMedianOf (m : Q) (values : list Q) : Prop :=
  exists (sorted : list Q) (k : nat),
    Permutation sorted values /\ Sorted Qle sorted /\
    ((List.length sorted = (2 * k + 1)%nat /\ sorted !! k = Some m) \/
     (List.length sorted = (2 * k + 2)%nat /\
      exists a b, sorted !! k = Some a /\ sorted !! S k = Some b /\
                  m = ((a + b) / 2)%Q)).

(** How many values are at most, and at least, [m]. *)
Definition countLe (m : Q) (values : list Q) : nat :=
  List.length (List.filter (fun x => Qle_bool x m) values).

Definition countGe (m : Q) (values : list Q) : nat :=
  List.length (List.filter (fun x => Qle_bool m x) values).

(** The noun the fallback text uses after the frequency. *)
Definition entryNoun (frequency : Z) (noun : string) : Prop :=
  (frequency = 1 /\ noun = "entry") \/ (frequency <> 1 /\ noun = "entries").

(** The severity bands of the fallback text, as intervals of the score. *)
Definition severityBand (score : Q) (band : string) : Prop :=
  ((score <= 2)%Q /\ band = "mild") \/
  ((2 < score)%Q /\ (score <= 4)%Q /\ band = "moderate") \/
  ((4 < score)%Q /\ (score <= 6)%Q /\ band = "moderate to severe") \/
  ((6 < score)%Q /\ (score <= 8)%Q /\ band = "severe") \/
  ((8 < score)%Q /\ band = "very severe").

(** [period] is a name the mapping does not own and inherits from
    [Object.prototype]. *)
Definition inheritedOnly (maps : gmap string (list BodyMap.t)) (period : string)
    : Prop :=
  maps !! period = None /\ In period objectPrototypeNames.

(** The mapping [{}], with no period at all. *)
Definition noMaps : gmap string (list BodyMap.t) := empty.

(** The message of the [TypeError] for calling a method a value lacks. *)
Definition typeError : string := "periodData.filter is not a function".

(** The summary [sumRegion] gives when nothing was logged. *)
Definition nothingLogged (period region : string) : RegionSummary.t :=
  {| RegionSummary.region := region;
     RegionSummary.period := period;
     RegionSummary.frequency := 0;
     RegionSummary.medianScore := 0%Q;
     RegionSummary.totalEntries := 0;
     RegionSummary.dateRange := None |}.

(** Sample data: an entry with an integer score logged at [time]. *)
Definition entry (region : string) (score time : Z) : BodyMap.t :=
  {| BodyMap.region := region;
     BodyMap.painScore := inject_Z score;
     BodyMap.timestamp := {| getTime := time |} |}.

Definition sampleWeek : gmap string (list BodyMap.t) :=
  {[ "Week 1" :=
       [ entry "Lower Back" 7 1; entry "Lower Back" 6 2; entry "Neck" 3 2;
         entry "Lower Back" 8 3; entry "Lower Back" 5 4; entry "lower back" 1 4;
         entry "Lower Back" 8 5; entry "Lower Back" 8 6; entry "Lower Back" 9 7 ];
     "Yesterday" := [ entry "Wrist" 4 9 ] ]}.

(** A catalogued region that the text mentions (ignoring case) and that
    is foreign to the expected one: neither part of its name nor a name it
    is part of. *)
Definition foreignRegion (text expectedRegion region : string) : Prop :=
  In region bodyRegions /\
  occursIn region (toLowerCase text) /\
  ~ occursIn region (toLowerCase expectedRegion) /\
  ~ occursIn (toLowerCase expectedRegion) region.

(** The last character of [s], or [prev] when [s] is empty. *)
Fixpoint lastChar (prev : option ascii) (s : string) : option ascii :=
  match s with
  | EmptyString => prev
  | String c s' => lastChar (Some c) s'
  end.

(** [standsAlone word text]: ignoring case, [word] occurs in [text] as a
    whole word, with no letter, digit or underscore right before or right
    after it. *)
Definition standsAlone (word text : string) : Prop :=
  exists pre post,
    toLowerCase text = pre +:+ word +:+ post /\
    wordBefore (lastChar None pre) = false /\ wordAhead post = false.

(** The pattern for a whole word. *)
Definition bounded (word : string) : string := "\b" +:+ word +:+ "\b".

Definition lowFrequencyWords : list string :=
  [ "low"; "rare"; "infrequent"; "occasional"; "few"; "minimal" ].

Definition highSeverityWords : list string :=
  [ "severe"; "intense"; "extreme"; "major"; "substantial" ].

Fixpoint wordAtoms (word : string) : list reAtom :=
  match word with
  | EmptyString => []
  | String c word' => ReChar c :: wordAtoms word'
  end.

(** A non-empty word of lower-case letters, digits and underscores. *)
Fixpoint allChars (f : ascii -> bool) (s : string) : bool :=
  match s with
  | EmptyString => true
  | String c s' => (f c && allChars f s')%bool
  end.

Definition isPlainWord (word : string) : bool :=
  (negb (String.eqb word "")
   && allChars (fun c => isWordChar c && negb (isUpper c)) word)%bool.

(** The two parts of [validateLogicalConsistency]. *)
Definition frequencyPart (summary : string) (frequency : Z) : list string :=
  if frequency <=? 2 then
    warnIfAny frequencyDescriptors.high (toLowerCase summary)
              (frequencyWarning frequency "low" "high")
  else if frequency >=? 7 then
    warnIfAny frequencyDescriptors.low (toLowerCase summary)
              (frequencyWarning frequency "high" "low")
  else [].

Definition severityPart (summary : string) (medianScore : Q) : list string :=
  if Qle_bool medianScore 3 then
    warnIfAny severityDescriptors.high (toLowerCase summary)
              (severityWarning medianScore "mild" "severe")
  else if Qle_bool 7 medianScore then
    warnIfAny severityDescriptors.low (toLowerCase summary)
              (severityWarning medianScore "severe" "mild")
  else [].

(** The candidate text the k-th request yields, if it yields one: the
    trimmed reply of the service, unless the service failed or the reply
    was blank. *)
Definition candidateAt (service : nat -> ServiceReply) (k : nat) : option string :=
  match service k with
  | Reply response =>
      if String.eqb (trim response) "" then None else Some (trim response)
  | Failure _ => None
  end.

(** The world after one more request, and after one more delay. *)
Definition sent (w : World) : World :=
  {| requests := S (requests w); waited := waited w |}.

Definition delayed (w : World) (ms : Z) : World :=
  {| requests := requests w; waited := waited w ++ [ms] |}.

(** One turn of the retry loop: the [try] block under its [catch]. *)
Definition oneAttempt (service : nat -> ServiceReply) (self : Generator.t)
    (period region : string) (frequency : Z) (medianScore : Q)
    (options : SummaryOptions.t) (attempt : Z) : M LoopStep :=
  tryCatch (tryBlock service self period region frequency medianScore options attempt)
           (catchBlock self period region frequency medianScore options attempt).

(** Sample services and settings. *)
Definition alwaysReplies (text : string) : nat -> ServiceReply :=
  fun _ => Reply text.

Definition alwaysFails (message : string) : nat -> ServiceReply :=
  fun _ => Failure message.

Definition defaultConfig : Config.t :=
  {| Config.apiKey := "key"; Config.maxRetries := None; Config.retryDelay := None |}.

Definition testConfig : Config.t :=
  {| Config.apiKey := "key"; Config.maxRetries := Some 2;
     Config.retryDelay := Some 1000 |}.

Definition noFallback : SummaryOptions.t :=
  {| SummaryOptions.maxRetries := None; SummaryOptions.retryDelay := None;
     SummaryOptions.fallbackEnabled := Some false;
     SummaryOptions.enableValidation := None |}.

Definition zeroOptions : SummaryOptions.t :=
  {| SummaryOptions.maxRetries := Some 0; SummaryOptions.retryDelay := Some 0;
     SummaryOptions.fallbackEnabled := None;
     SummaryOptions.enableValidation := None |}.

(** An options object with its zero-valued numbers left out. *)
Definition dropZero (x : option Z) : option Z :=
  match x with
  | Some n => if n =? 0 then None else Some n
  | None => None
  end.

Definition withoutZeros (options : SummaryOptions.t) : SummaryOptions.t :=
  {| SummaryOptions.maxRetries := dropZero (SummaryOptions.maxRetries options);
     SummaryOptions.retryDelay := dropZero (SummaryOptions.retryDelay options);
     SummaryOptions.fallbackEnabled := SummaryOptions.fallbackEnabled options;
     SummaryOptions.enableValidation := SummaryOptions.enableValidation options |}.

(** The other two descriptor families the consistency check looks for. *)
Definition highFrequencyWords : list string :=
  [ "high"; "frequent"; "often"; "many"; "numerous"; "considerable" ].

Definition lowSeverityWords : list string :=
  [ "mild"; "slight"; "minimal"; "minor" ].

(** The message of the error the k-th request ends with, if it ends with
    one: the failure of the service, or the complaint about a blank reply. *)
Definition errorAt (service : nat -> ServiceReply) (k : nat) : option string :=
  match service k with
  | Reply response =>
      if String.eqb (trim response) "" then Some "Empty response from Gemini API"
      else None
  | Failure message => Some message
  end.

(** The k-th request gives nothing acceptable: no candidate at all, or a
    candidate that validation (when it runs) rejects with an error. *)
Definition attemptFails (service : nat -> ServiceReply) (validation : bool)
    (period region : string) (frequency : Z) (medianScore : Q) (k : nat) : Prop :=
  match candidateAt service k with
  | Some text =>
      validation = true /\
      errors (validateSummary text region frequency medianScore period) <> []
  | None => True
  end.

(** The delay after a failed attempt: flat after a rejected candidate,
    scaled by the attempt number after a request without candidate. *)
Definition backoff (service : nat -> ServiceReply) (retryDelay : Z)
    (k : nat) (attempt : Z) : Z :=
  match candidateAt service k with
  | Some _ => retryDelay
  | None => retryDelay * attempt
  end.

(** The delays of [count] failed attempts in a row, the first of them
    being attempt number [attempt] and request number [first]. *)
Definition failureSchedule (service : nat -> ServiceReply) (retryDelay : Z)
    (first : nat) (attempt : Z) (count : nat) : list Z :=
  map (fun i => backoff service retryDelay (first + i) (attempt + Z.of_nat i))
      (seq 0 count).

(** A sample service that answers with the given texts in turn and fails
    once they are used up. *)
Definition replies (texts : list string) : nat -> ServiceReply :=
  fun k =>
    match texts !! k with
    | Some text => Reply text
    | None => Failure "no more replies"
    end.

(** Timestamps in chronological order. *)
Definition notAfter (a b : Date) : Prop := getTime a <= getTime b.

(** * Properties *)

(** ** Strings *)

Lemma startsWith_spec (s p : string) :
  startsWith s p = true <-> exists post, s = p +:+ post.
Proof.
  revert s; induction p as [|a p IH]; intros s; simpl.
  - split; [intros _; exists s; reflexivity | reflexivity].
  - destruct s as [|b s].
    + split; [discriminate | intros [post H]; discriminate].
    + rewrite andb_true_iff, Ascii.eqb_eq, IH. split.
      * intros [-> [post ->]]. exists post. reflexivity.
      * intros [post H]. injection H as -> ->. eauto.
Qed.

Lemma includes_spec (s sub : string) :
  includes s sub = true <-> occursIn sub s.
Proof.
  unfold occursIn. induction s as [|c s IH].
  - simpl. rewrite orb_false_r, startsWith_spec. split.
    + intros [post H]. exists "", post. exact H.
    + intros [[|? pre] [post H]]; [exists post; exact H | discriminate].
  - cbn [includes]. rewrite orb_true_iff, startsWith_spec, IH. split.
    + intros [[post H] | [pre [post H]]].
      * exists "", post. exact H.
      * exists (String c pre), post. simpl. now rewrite H.
    + intros [[|d pre] [post H]].
      * left. exists post. exact H.
      * right. simpl in H. injection H as -> H. eauto.
Qed.

Lemma append_cons (x : ascii) (a b : string) :
  String x a +:+ b = String x (a +:+ b).
Proof. reflexivity. Qed.

Lemma append_nil (a : string) : "" +:+ a = a.
Proof. reflexivity. Qed.

Lemma append_assoc (a b c : string) : (a +:+ b) +:+ c = a +:+ (b +:+ c).
Proof.
  induction a as [|x a IH]; [reflexivity|].
  now rewrite !append_cons, IH.
Qed.

Lemma occursIn_prefix (a b s : string) : occursIn (a +:+ b) s -> occursIn a s.
Proof.
  intros [pre [post H]]. exists pre, (b +:+ post).
  now rewrite H, append_assoc.
Qed.

Lemma toLowerCase_app (a b : string) :
  toLowerCase (a +:+ b) = toLowerCase a +:+ toLowerCase b.
Proof.
  induction a as [|x a IH]; [reflexivity|].
  rewrite append_cons. simpl. now rewrite append_cons, IH.
Qed.

Lemma lowerChar_idem (c : ascii) : lowerChar (lowerChar c) = lowerChar c.
Proof.
  destruct c as [[] [] [] [] [] [] [] []]; reflexivity.
Qed.

Lemma toLowerCase_idem (s : string) : toLowerCase (toLowerCase s) = toLowerCase s.
Proof.
  induction s as [|c s IH]; simpl; [reflexivity | now rewrite lowerChar_idem, IH].
Qed.

(** ** Sorting *)

Lemma insertBy_perm {A} (compare : A -> A -> Q) (x : A) (l : list A) :
  Permutation (insertBy compare x l) (x :: l).
Proof.
  induction l as [|y l IH]; simpl.
  - reflexivity.
  - destruct (Qle_bool (compare x y) 0).
    + reflexivity.
    + rewrite IH. apply perm_swap.
Qed.

Lemma sortBy_perm {A} (compare : A -> A -> Q) (l : list A) :
  Permutation (sortBy compare l) l.
Proof.
  induction l as [|x l IH]; simpl.
  - reflexivity.
  - rewrite insertBy_perm. now apply perm_skip.
Qed.

Lemma sortBy_length {A} (compare : A -> A -> Q) (l : list A) :
  List.length (sortBy compare l) = List.length l.
Proof. apply Permutation_length, sortBy_perm. Qed.

Lemma ascending_le (a b : Q) : Qle_bool (a - b) 0 = true <-> (a <= b)%Q.
Proof.
  rewrite Qle_bool_iff. destruct a as [an ad], b as [bn bd].
  unfold Qle, Qminus, Qplus, Qopp; simpl. lia.
Qed.

Lemma ascending_gt (a b : Q) : Qle_bool (a - b) 0 = false -> (b <= a)%Q.
Proof.
  intros H. destruct (Qlt_le_dec a b) as [Hlt | Hle]; [|exact Hle].
  apply Qlt_le_weak, ascending_le in Hlt. congruence.
Qed.

Lemma insertBy_sorted (x : Q) (l : list Q) :
  Sorted Qle l -> Sorted Qle (insertBy (fun a b => a - b)%Q x l).
Proof.
  induction 1 as [|y l Hl IH Hhd]; simpl.
  - repeat constructor.
  - destruct (Qle_bool (x - y) 0) eqn:E.
    + apply ascending_le in E. repeat constructor; assumption.
    + apply ascending_gt in E. constructor; [exact IH|].
      destruct l as [|z l]; simpl.
      * constructor. exact E.
      * destruct (Qle_bool (x - z) 0); constructor;
          [exact E | now inversion Hhd].
Qed.

Lemma sortBy_sorted (l : list Q) : Sorted Qle (sortBy (fun a b => a - b)%Q l).
Proof.
  induction l as [|x l IH]; simpl; [constructor | now apply insertBy_sorted].
Qed.

(** ** Statistics *)

Lemma filter_matching (region : string) (l : list BodyMap.t) :
  List.filter (fun entry => String.eqb (BodyMap.region entry) region) l =
  filter (fun entry => BodyMap.region entry = region) l.
Proof.
  induction l as [|e l IH]; [reflexivity|].
  simpl. rewrite filter_cons, IH.
  destruct (String.eqb_spec (BodyMap.region e) region), (decide (BodyMap.region e = region));
    congruence.
Qed.

Lemma prototypeName_spec (period : string) :
  existsb (String.eqb period) objectPrototypeNames = true <->
  In period objectPrototypeNames.
Proof.
  rewrite existsb_exists. split.
  - intros (name & Hin & E). apply String.eqb_eq in E. now subst.
  - intros H. exists period. split; [exact H | apply String.eqb_refl].
Qed.

Lemma inheritedOnly_or_not maps period :
  inheritedOnly maps period \/ ~ inheritedOnly maps period.
Proof.
  unfold inheritedOnly. destruct (maps !! period) as [entries|].
  - right. intros [H _]. discriminate.
  - destruct (existsb (String.eqb period) objectPrototypeNames) eqn:Ex.
    + left. split; [reflexivity | now apply prototypeName_spec].
    + right. intros [_ H]. apply prototypeName_spec in H. congruence.
Qed.

Lemma sumRegion_throws period maps region :
  inheritedOnly maps period -> sumRegion period maps region = Thrown typeError.
Proof.
  intros [Hnone Hin]. unfold sumRegion, getProperty. rewrite Hnone.
  apply prototypeName_spec in Hin. rewrite Hin. reflexivity.
Qed.

Lemma sumRegion_returns period maps region :
  ~ inheritedOnly maps period ->
  sumRegion period maps region =
  Returned (regionStatistics period region (matchingEntries period maps region)).
Proof.
  intros Hn. unfold sumRegion, getProperty, matchingEntries.
  destruct (maps !! period) as [entries|] eqn:E.
  - cbn [orEmptyArray default]. now rewrite filter_matching.
  - destruct (existsb (String.eqb period) objectPrototypeNames) eqn:Ex.
    + exfalso. apply Hn. split; [exact E | now apply prototypeName_spec].
    + reflexivity.
Qed.

Lemma own_not_inheritedOnly maps period entries :
  maps !! period = Some entries -> ~ inheritedOnly maps period.
Proof. intros H [Hnone _]. congruence. Qed.

Lemma matching_not_inheritedOnly maps period region :
  matchingEntries period maps region <> [] -> ~ inheritedOnly maps period.
Proof.
  intros Hne [Hnone _]. apply Hne. unfold matchingEntries. now rewrite Hnone.
Qed.

Lemma regionStatistics_frequency period region (l : list BodyMap.t) :
  RegionSummary.frequency (regionStatistics period region l) =
  Z.of_nat (List.length l).
Proof.
  unfold regionStatistics.
  destruct (Z.eqb_spec (Z.of_nat (List.length l)) 0) as [E|E]; simpl; congruence.
Qed.

Lemma at_lookup (l : list Q) (i : nat) (x : Q) :
  l !! i = Some x -> at_ l (Z.of_nat i) = x.
Proof.
  intros H. unfold at_. rewrite Nat2Z.id. now apply nth_lookup_Some.
Qed.

Lemma calculateMedian_middle (sorted : list Q) :
  sorted <> [] ->
  exists k : nat,
    (List.length sorted = (2 * k + 1)%nat /\
     sorted !! k = Some (calculateMedian sorted)) \/
    (List.length sorted = (2 * k + 2)%nat /\
     exists a b, sorted !! k = Some a /\ sorted !! S k = Some b /\
                 calculateMedian sorted = ((a + b) / 2)%Q).
Proof.
  intros Hne. unfold calculateMedian.
  assert (Hpos : (0 < List.length sorted)%nat) by (destruct sorted; [congruence | simpl; lia]).
  destruct (Z.eqb_spec (Z.of_nat (List.length sorted)) 0) as [E|_]; [lia|].
  destruct (Nat.Even_or_Odd (List.length sorted)) as [[j Hj] | [j Hj]].
  - exists (j - 1)%nat. right.
    assert (Hmod : Z.of_nat (List.length sorted) mod 2 = 0)
      by (rewrite Hj; Z.div_mod_to_equations; lia).
    assert (Hmid : Z.of_nat (List.length sorted) / 2 = Z.of_nat (S (j - 1)))
      by (rewrite Hj; Z.div_mod_to_equations; lia).
    rewrite Hmod, Hmid. simpl (0 =? 0).
    split; [lia|].
    destruct (lookup_lt_is_Some_2 sorted (j - 1)%nat) as [a Ha]; [lia|].
    destruct (lookup_lt_is_Some_2 sorted (S (j - 1))) as [b Hb]; [lia|].
    exists a, b. repeat split; try assumption.
    replace (Z.of_nat (S (j - 1)) - 1) with (Z.of_nat (j - 1)) by lia.
    now rewrite (at_lookup _ _ _ Ha), (at_lookup _ _ _ Hb).
  - exists j. left.
    assert (Hmod : Z.of_nat (List.length sorted) mod 2 = 1)
      by (rewrite Hj; Z.div_mod_to_equations; lia).
    assert (Hmid : Z.of_nat (List.length sorted) / 2 = Z.of_nat j)
      by (rewrite Hj; Z.div_mod_to_equations; lia).
    rewrite Hmod, Hmid. simpl (1 =? 0).
    split; [lia|].
    destruct (lookup_lt_is_Some_2 sorted j) as [a Ha]; [lia|].
    now rewrite (at_lookup _ _ _ Ha).
Qed.



(** The textbook median splits the values: at least half of them are at
    most the median and at least half are at least the median. *)

Lemma filter_length_perm {A} (f : A -> bool) (l l' : list A) :
  Permutation l l' -> List.length (List.filter f l) = List.length (List.filter f l').
Proof.
  induction 1 as [|x l l' _ IH|x y l|l l' l'' _ IH1 _ IH2]; simpl.
  - reflexivity.
  - destruct (f x); simpl; now rewrite IH.
  - destruct (f x), (f y); reflexivity.
  - now rewrite IH1.
Qed.

Lemma filter_length_mono {A} (f g : A -> bool) (l : list A) :
  (forall x, f x = true -> g x = true) ->
  (List.length (List.filter f l) <= List.length (List.filter g l))%nat.
Proof.
  intros Hfg. induction l as [|x l IH]; simpl; [lia|].
  destruct (f x) eqn:Ef.
  - rewrite (Hfg x Ef). simpl. lia.
  - destruct (g x); simpl; lia.
Qed.

Lemma filter_length_all {A} (f : A -> bool) (l : list A) :
  Forall (fun x => f x = true) l -> List.length (List.filter f l) = List.length l.
Proof.
  induction 1 as [|x l Hx _ IH]; simpl; [reflexivity|].
  rewrite Hx. simpl. now rewrite IH.
Qed.

Lemma sorted_countLe (s : list Q) :
  StronglySorted Qle s ->
  forall k a, s !! k = Some a -> (k + 1 <= countLe a s)%nat.
Proof.
  unfold countLe. induction 1 as [|x s Hs IH Hx]; intros k a Hk; [discriminate|].
  destruct k as [|k]; simpl in Hk.
  - injection Hk as ->. simpl.
    replace (Qle_bool a a) with true by (symmetry; apply Qle_bool_iff, Qle_refl).
    simpl. lia.
  - specialize (IH k a Hk). simpl.
    assert (Hxa : Qle_bool x a = true).
    { apply Qle_bool_iff. rewrite Forall_forall in Hx.
      apply Hx, (list_elem_of_lookup_2 _ _ _ Hk). }
    rewrite Hxa. simpl. lia.
Qed.

Lemma sorted_countGe (s : list Q) :
  StronglySorted Qle s ->
  forall k a, s !! k = Some a -> (List.length s - k <= countGe a s)%nat.
Proof.
  unfold countGe. induction 1 as [|x s Hs IH Hx]; intros k a Hk; [discriminate|].
  destruct k as [|k]; simpl in Hk.
  - injection Hk as ->. simpl.
    replace (Qle_bool a a) with true by (symmetry; apply Qle_bool_iff, Qle_refl).
    simpl. rewrite filter_length_all; [lia|].
    eapply Forall_impl; [exact Hx|]. intros y Hy. now apply Qle_bool_iff.
  - specialize (IH k a Hk). simpl. destruct (Qle_bool a x); simpl; lia.
Qed.

Lemma sorted_neighbours (s : list Q) :
  StronglySorted Qle s ->
  forall k a b, s !! k = Some a -> s !! S k = Some b -> (a <= b)%Q.
Proof.
  induction 1 as [|x s Hs IH Hx]; intros k a b Ha Hb; [discriminate|].
  destruct k as [|k]; simpl in Ha, Hb.
  - injection Ha as ->. rewrite Forall_forall in Hx.
    apply Hx, (list_elem_of_lookup_2 _ _ _ Hb).
  - exact (IH k a b Ha Hb).
Qed.

Lemma mean_between (a b : Q) :
  (a <= b)%Q -> (a <= (a + b) / 2)%Q /\ ((a + b) / 2 <= b)%Q.
Proof.
  destruct a as [an ad], b as [bn bd].
  unfold Qle, Qdiv, Qmult, Qplus, Qinv; simpl. intros H.
  rewrite !Pos2Z.inj_mul. split; nia.
Qed.

Lemma isMedianOf_balanced (m : Q) (values : list Q) :
  isMedianOf m values ->
  (List.length values <= 2 * countLe m values)%nat /\
  (List.length values <= 2 * countGe m values)%nat.
Proof.
  intros (sorted & k & Hperm & Hsorted & Hmid).
  apply (Sorted_StronglySorted Qle_trans) in Hsorted.
  unfold countLe, countGe.
  rewrite <- (Permutation_length Hperm).
  rewrite <- (filter_length_perm (fun x => Qle_bool x m) _ _ Hperm).
  rewrite <- (filter_length_perm (fun x => Qle_bool m x) _ _ Hperm).
  destruct Hmid as [[Hlen Hk] | (Hlen & a & b & Ha & Hb & ->)].
  - pose proof (sorted_countLe sorted Hsorted k m Hk) as H1.
    pose proof (sorted_countGe sorted Hsorted k m Hk) as H2.
    unfold countLe, countGe in *. lia.
  - pose proof (sorted_countLe sorted Hsorted k a Ha) as H1.
    pose proof (sorted_countGe sorted Hsorted (S k) b Hb) as H2.
    destruct (mean_between a b (sorted_neighbours sorted Hsorted k a b Ha Hb))
      as [Hlo Hhi].
    pose proof (filter_length_mono (fun x => Qle_bool x a)
                  (fun x => Qle_bool x ((a + b) / 2)) sorted) as M1.
    pose proof (filter_length_mono (fun x => Qle_bool b x)
                  (fun x => Qle_bool ((a + b) / 2) x) sorted) as M2.
    unfold countLe, countGe in *. split.
    + assert (M : (List.length (List.filter (fun x => Qle_bool x a) sorted)
                   <= List.length (List.filter (fun x => Qle_bool x ((a + b) / 2)) sorted))%nat).
      { apply M1. intros x Hx. apply Qle_bool_iff. apply Qle_bool_iff in Hx.
        eapply Qle_trans; eassumption. }
      lia.
    + assert (M : (List.length (List.filter (fun x => Qle_bool b x) sorted)
                   <= List.length (List.filter (fun x => Qle_bool ((a + b) / 2) x) sorted))%nat).
      { apply M2. intros x Hx. apply Qle_bool_iff. apply Qle_bool_iff in Hx.
        eapply Qle_trans; eassumption. }
      lia.
Qed.

Example sumRegion_sampleWeek :
  sumRegion "Week 1" sampleWeek "Lower Back" =
  Returned
    {| RegionSummary.region := "Lower Back";
       RegionSummary.period := "Week 1";
       RegionSummary.frequency := 7;
       RegionSummary.medianScore := 8;
       RegionSummary.totalEntries := 7;
       RegionSummary.dateRange :=
         Some {| range_start := {| getTime := 1 |}; range_end := {| getTime := 7 |} |} |}.
Proof. vm_compute. reflexivity. Qed.

Example sumRegion_single_entry :
  exists summary,
    sumRegion "Yesterday" sampleWeek "Wrist" = Returned summary /\
    RegionSummary.frequency summary = 1 /\
    RegionSummary.medianScore summary = 4%Q.
Proof. eexists. vm_compute. repeat split. Qed.


(** C7. A period that is not a key of the mapping is not always answered
    with the zero summary.  For the period "constructor", a name every
    plain object inherits, the mapping has no key and no entry matches, yet
    [sumRegion] throws a [TypeError] in place of returning frequency 0,
    median score 0, total entries 0 and no date range; the same happens on
    the empty mapping, and for every inherited name. *)
Theorem sumRegion_inherited_period_throws :
  sampleWeek !! "constructor" = None /\
  matchingEntries "constructor" sampleWeek "Wrist" = [] /\
  sumRegion "constructor" sampleWeek "Wrist" =
    Thrown "periodData.filter is not a function" /\
  sumRegion "toString" noMaps "Neck" = Thrown "periodData.filter is not a function" /\
  Forall (fun period =>
            sumRegion period noMaps "Neck" = Thrown "periodData.filter is not a function")
         objectPrototypeNames.
Proof.
  split; [reflexivity|]. split; [reflexivity|].
  split; [reflexivity|]. split; [reflexivity|].
  repeat constructor.
Qed.

(** ** Fallback text *)

Lemma Qle_bool_false (x y : Q) : Qle_bool x y = false -> (y < x)%Q.
Proof.
  intros H. apply Qnot_le_lt. intros Hle. apply Qle_bool_iff in Hle. congruence.
Qed.

Lemma getSeverityDescription_band (score : Q) :
  severityBand score (getSeverityDescription score).
Proof.
  unfold getSeverityDescription, severityBand.
  destruct (Qle_bool score 2) eqn:E2; [apply Qle_bool_iff in E2; tauto|].
  destruct (Qle_bool score 4) eqn:E4; [apply Qle_bool_iff in E4|];
    apply Qle_bool_false in E2; [tauto|].
  destruct (Qle_bool score 6) eqn:E6; [apply Qle_bool_iff in E6|];
    apply Qle_bool_false in E4; [tauto|].
  destruct (Qle_bool score 8) eqn:E8; [apply Qle_bool_iff in E8|];
    apply Qle_bool_false in E6; [tauto|].
  apply Qle_bool_false in E8. tauto.
Qed.

(** The text of [generateFallbackSummary] in the revision with the
    zero-entry branch: for frequency 0 the fixed sentence that nothing has
    been logged yet for the lowercased region and period (it does not
    mention any score); otherwise the template with the lowercased period,
    the frequency followed by "entry" when it is 1 and "entries" otherwise,
    the lowercased region, and the median score with its severity band
    (up to 2 mild, up to 4 moderate, up to 6 moderate to severe, up to 8
    severe, above very severe). *)
Lemma generateFallbackSummary_text period region frequency medianScore :
  (frequency = 0 ->
   generateFallbackSummary period region frequency medianScore =
   "You haven't logged any pain data for your " +:+ toLowerCase region
     +:+ " during " +:+ toLowerCase period
     +:+ " yet. When you start tracking this region, your data will appear here.") /\
  (frequency <> 0 ->
   exists noun band,
     entryNoun frequency noun /\ severityBand medianScore band /\
     generateFallbackSummary period region frequency medianScore =
     "During " +:+ toLowerCase period +:+ ", you recorded "
       +:+ Z_toString frequency +:+ " pain " +:+ noun +:+ " for your "
       +:+ toLowerCase region +:+ ", with a median pain level of "
       +:+ Q_toString medianScore +:+ "/10 (" +:+ band
       +:+ "). This data helps track your pain patterns over time.").
Proof.
  unfold generateFallbackSummary. split.
  - intros ->. reflexivity.
  - intros Hne. destruct (Z.eqb_spec frequency 0) as [E|_]; [contradiction|].
    exists (if frequency =? 1 then "entry" else "entries"),
           (getSeverityDescription medianScore).
    split; [|split; [apply getSeverityDescription_band | reflexivity]].
    unfold entryNoun. destruct (Z.eqb_spec frequency 1); tauto.
Qed.

Lemma fallback_text_samples :
  generateFallbackSummary "Yesterday" "Elbow" 0 0 =
  "You haven't logged any pain data for your " +:+ toLowerCase "Elbow"
    +:+ " during " +:+ toLowerCase "Yesterday"
    +:+ " yet. When you start tracking this region, your data will appear here." /\
  exists noun band,
    entryNoun 1 noun /\ severityBand 4 band /\
    generateFallbackSummary "Yesterday" "Wrist" 1 4 =
    "During " +:+ toLowerCase "Yesterday" +:+ ", you recorded "
      +:+ Z_toString 1 +:+ " pain " +:+ noun +:+ " for your "
      +:+ toLowerCase "Wrist" +:+ ", with a median pain level of "
      +:+ Q_toString 4 +:+ "/10 (" +:+ band
      +:+ "). This data helps track your pain patterns over time.".
Proof.
  split.
  - apply (proj1 (generateFallbackSummary_text "Yesterday" "Elbow" 0 0)). reflexivity.
  - apply (proj2 (generateFallbackSummary_text "Yesterday" "Wrist" 1 4)). discriminate.
Defined.

Example fallback_sampleWeek :
  generateFallbackSummary "Week 1" "Lower Back" 7 7 =
  "During week 1, you recorded 7 pain entries for your lower back, with a median pain level of 7/10 (severe). This data helps track your pain patterns over time.".
Proof. vm_compute. reflexivity. Qed.

Example fallback_single_entry :
  generateFallbackSummary "Yesterday" "Wrist" 1 4 =
  "During yesterday, you recorded 1 pain entry for your wrist, with a median pain level of 4/10 (moderate). This data helps track your pain patterns over time.".
Proof. vm_compute. reflexivity. Qed.

Example fallback_half_score :
  generateFallbackSummary "Last Month" "Neck" 2 (13 # 2) =
  "During last month, you recorded 2 pain entries for your neck, with a median pain level of 6.5/10 (severe). This data helps track your pain patterns over time.".
Proof. vm_compute. reflexivity. Qed.

Example fallback_nothing_logged :
  generateFallbackSummary "Yesterday" "Elbow" 0 0 =
  "You haven't logged any pain data for your elbow during yesterday yet. When you start tracking this region, your data will appear here.".
Proof. vm_compute. reflexivity. Qed.

(** The printed numbers: an integer prints as its decimal digits, a score
    with a fraction as the integer part, a point and the digits of the
    fraction. *)
Example printed_numbers :
  map Z_toString [0; 1; 7; 10; 12; 305] = ["0"; "1"; "7"; "10"; "12"; "305"] /\
  map Q_toString [0; 4; 7; 10; 13 # 2; 15 # 4; 1 # 8]%Q =
    ["0"; "4"; "7"; "10"; "6.5"; "3.75"; "0.125"].
Proof. vm_compute. split; reflexivity. Qed.

Lemma legacy_fallback_template period region frequency medianScore :
  frequency <> 0 ->
  Legacy.generateFallbackSummary period region frequency medianScore =
  generateFallbackSummary period region frequency medianScore.
Proof.
  intros Hne. unfold Legacy.generateFallbackSummary, generateFallbackSummary.
  destruct (Z.eqb_spec frequency 0) as [E|_]; [contradiction | reflexivity].
Qed.

(** C4. The two copies of [generateFallbackSummary] disagree at frequency
    0.  The revision with the zero-entry branch returns the fixed sentence
    that nothing has been logged yet; the older copy has no such branch and
    returns the template, reporting 0 pain entries with a median pain level
    of 0/10 (mild).  At every other frequency the two copies return the
    same text, and the texts of the template are the ones shown: "entry"
    for one entry and "entries" otherwise, the lowercased period and
    region, the score and its band. *)
Theorem generateFallbackSummary_zero_branch_missing :
  generateFallbackSummary "Yesterday" "Elbow" 0 0 =
    "You haven't logged any pain data for your elbow during yesterday yet. When you start tracking this region, your data will appear here." /\
  Legacy.generateFallbackSummary "Yesterday" "Elbow" 0 0 =
    "During yesterday, you recorded 0 pain entries for your elbow, with a median pain level of 0/10 (mild). This data helps track your pain patterns over time." /\
  (forall period region frequency medianScore,
     frequency <> 0 ->
     Legacy.generateFallbackSummary period region frequency medianScore =
     generateFallbackSummary period region frequency medianScore) /\
  Legacy.generateFallbackSummary "Yesterday" "Wrist" 1 4 =
    "During yesterday, you recorded 1 pain entry for your wrist, with a median pain level of 4/10 (moderate). This data helps track your pain patterns over time." /\
  Legacy.generateFallbackSummary "Last Month" "Neck" 2 (13 # 2) =
    "During last month, you recorded 2 pain entries for your neck, with a median pain level of 6.5/10 (severe). This data helps track your pain patterns over time." /\
  Legacy.generateFallbackSummary "Today" "Left Knee" 12 9 =
    "During today, you recorded 12 pain entries for your left knee, with a median pain level of 9/10 (very severe). This data helps track your pain patterns over time." /\
  Legacy.generateFallbackSummary "Week 1" "Hip" 3 5 =
    "During week 1, you recorded 3 pain entries for your hip, with a median pain level of 5/10 (moderate to severe). This data helps track your pain patterns over time.".
Proof.
  split; [vm_compute; reflexivity|]. split; [vm_compute; reflexivity|].
  split; [exact legacy_fallback_template|].
  repeat split; vm_compute; reflexivity.
Qed.

(** ** The region check *)

Lemma bodyRegions_lowercase (region : string) :
  In region bodyRegions -> toLowerCase region = region.
Proof.
  assert (H : forallb (fun r => String.eqb (toLowerCase r) r) bodyRegions = true)
    by reflexivity.
  rewrite forallb_forall in H. intros Hin. now apply String.eqb_eq, H.
Qed.

Lemma not_true_not (b : bool) (P : Prop) : (b = true <-> P) -> (b = false <-> ~ P).
Proof. destruct b; intuition congruence. Qed.

Lemma isHallucinated_spec (summary expectedRegion region : string) :
  In region bodyRegions ->
  isHallucinated (toLowerCase summary) (toLowerCase expectedRegion) region = true <->
  foreignRegion summary expectedRegion region.
Proof.
  intros Hin. unfold isHallucinated, foreignRegion.
  rewrite (bodyRegions_lowercase _ Hin).
  pose proof (includes_spec (toLowerCase expectedRegion) region) as H1.
  pose proof (includes_spec region (toLowerCase expectedRegion)) as H2.
  pose proof (includes_spec (toLowerCase summary) region) as H3.
  destruct (includes (toLowerCase expectedRegion) region),
           (includes region (toLowerCase expectedRegion)); simpl;
    try (split; [discriminate | intros (_ & _ & Ha & Hb)]; tauto).
  rewrite H3. split; [intros H | tauto].
  repeat split; try assumption; intros Hc; [apply H1 in Hc | apply H2 in Hc];
    discriminate.
Qed.

Lemma hallucinated_nonempty (summary expectedRegion : string) :
  List.filter (isHallucinated (toLowerCase summary) (toLowerCase expectedRegion))
              bodyRegions <> []
  <-> exists region, foreignRegion summary expectedRegion region.
Proof.
  split.
  - destruct (List.filter _ bodyRegions) as [|r l] eqn:E; [congruence|]. intros _.
    assert (Hr : In r (r :: l)) by (left; reflexivity).
    rewrite <- E in Hr. apply filter_In in Hr as [Hin Hh].
    exists r. now apply isHallucinated_spec.
  - intros [r Hr] E.
    assert (Hin : In r bodyRegions) by apply Hr.
    apply (isHallucinated_spec _ _ _ Hin) in Hr.
    assert (H : In r (List.filter (isHallucinated (toLowerCase summary)
                                     (toLowerCase expectedRegion)) bodyRegions))
      by (apply filter_In; split; assumption).
    rewrite E in H. destruct H.
Qed.

(** C5. The region check of the validator produces an error exactly when
    the text mentions, ignoring case, a region of the fixed catalogue that
    is foreign to the expected region (neither part of the expected
    region's name nor containing it); the error then is among the errors of
    [validateSummary].  In particular a text that mentions neither the
    expected region nor a foreign catalogued region passes the check. *)
Theorem validateRegionMention_error_iff summary expectedRegion :
  (valid (validateRegionMention summary expectedRegion) = false <->
   exists region, foreignRegion summary expectedRegion region) /\
  (is_Some (error (validateRegionMention summary expectedRegion)) <->
   exists region, foreignRegion summary expectedRegion region) /\
  (forall message frequency medianScore period,
     error (validateRegionMention summary expectedRegion) = Some message ->
     In message (errors (validateSummary summary expectedRegion frequency
                                         medianScore period))) /\
  (~ occursIn (toLowerCase expectedRegion) (toLowerCase summary) ->
   (forall region, ~ foreignRegion summary expectedRegion region) ->
   validateRegionMention summary expectedRegion = {| valid := true; error := None |}).
Proof.
  pose proof (hallucinated_nonempty summary expectedRegion) as Hne.
  assert (Hshape :
    (List.filter (isHallucinated (toLowerCase summary) (toLowerCase expectedRegion))
                 bodyRegions = [] /\
     validateRegionMention summary expectedRegion = {| valid := true; error := None |})
    \/
    (List.filter (isHallucinated (toLowerCase summary) (toLowerCase expectedRegion))
                 bodyRegions <> [] /\
     valid (validateRegionMention summary expectedRegion) = false /\
     is_Some (error (validateRegionMention summary expectedRegion)))).
  { unfold validateRegionMention.
    destruct (List.filter _ bodyRegions) as [|r l]; simpl.
    - left. split; [reflexivity|]. rewrite andb_true_r.
      destruct (negb _); reflexivity.
    - right. rewrite andb_false_r. simpl. split; [discriminate|]. split; [reflexivity|].
      eexists; reflexivity. }
  repeat split.
  - intros Hv. destruct Hshape as [[_ E] | [H _]]; [rewrite E in Hv; discriminate|].
    now apply Hne.
  - intros Hex. destruct Hshape as [[E _] | [_ [H _]]]; [|exact H].
    apply Hne in Hex. contradiction.
  - intros Hs. destruct Hshape as [[_ E] | [H _]].
    + rewrite E in Hs. destruct Hs as [x Hx]. discriminate.
    + now apply Hne.
  - intros Hex. destruct Hshape as [[E _] | [_ [_ H]]]; [|exact H].
    apply Hne in Hex. contradiction.
  - intros message frequency medianScore period Herr. unfold validateSummary. simpl.
    destruct Hshape as [[_ E] | [_ [Hv _]]]; [rewrite E in Herr; discriminate|].
    rewrite Hv, Herr. simpl. left. reflexivity.
  - intros _ Hnone. destruct Hshape as [[_ E] | [H _]]; [exact E|].
    apply Hne in H as [r Hr]. destruct (Hnone r Hr).
Qed.

Example region_check_neck_back :
  validateRegionMention "Your neck and back pain was recorded 3 times." "Neck" =
  {| valid := false;
     error := Some ("Hallucinated region(s) detected: " +:+ dquote +:+ "back"
                    +:+ dquote +:+ " (expected only " +:+ dquote +:+ "Neck"
                    +:+ dquote +:+ ")") |}.
Proof. vm_compute. reflexivity. Qed.

Example region_check_compatible_names :
  valid (validateRegionMention "Pain in the back was logged 3 times." "Lower Back") = true /\
  valid (validateRegionMention "It was logged 3 times." "Lower Back") = true /\
  valid (validateRegionMention "Your LEGS and lower back hurt." "Lower Back") = false.
Proof. vm_compute. repeat split. Qed.

Lemma region_check_pronoun_only :
  validateRegionMention "It was logged 3 times this week." "Neck" =
  {| valid := true; error := None |}.
Proof.
  apply (proj2 (proj2 (proj2
           (validateRegionMention_error_iff "It was logged 3 times this week." "Neck")))).
  - intros H. apply includes_spec in H. vm_compute in H. discriminate.
  - intros region Hf.
    assert (Hin : In region bodyRegions) by apply Hf.
    apply (isHallucinated_spec _ _ _ Hin) in Hf.
    vm_compute in Hin.
    repeat (destruct Hin as [<- | Hin]; [vm_compute in Hf; discriminate|]).
    destruct Hin.
Defined.

(** ** Whole-word patterns *)

Lemma wordChar_not_backslash (c : ascii) : isWordChar c = true -> isBackslash c = false.
Proof. destruct c as [[] [] [] [] [] [] [] []]; vm_compute; congruence. Qed.

Lemma reParse_word_then_boundary (word : string) :
  allChars isWordChar word = true ->
  reParse (word +:+ "\b") = wordAtoms word ++ [ReWordBoundary].
Proof.
  induction word as [|c word IH]; [reflexivity|].
  simpl allChars. rewrite andb_true_iff. intros [Hc Hw].
  specialize (IH Hw). rewrite append_cons.
  assert (Hstep : reParse (String c (word +:+ "\b")) = ReChar c :: reParse (word +:+ "\b")).
  { destruct word as [|d word'].
    - rewrite append_nil. cbn. now rewrite (wordChar_not_backslash c Hc).
    - rewrite append_cons. cbn [reParse].
      now rewrite (wordChar_not_backslash c Hc). }
  rewrite Hstep, IH. reflexivity.
Qed.

Lemma reParse_bounded (word : string) :
  allChars isWordChar word = true ->
  reParse (bounded word) = ReWordBoundary :: wordAtoms word ++ [ReWordBoundary].
Proof.
  intros H. unfold bounded.
  change ("\b" +:+ word +:+ "\b")
    with (String "\"%char (String "b"%char (word +:+ "\b"))).
  cbn [reParse]. change (isBackslash "\"%char && isLetterB "b"%char)%bool with true.
  cbv iota. now rewrite reParse_word_then_boundary.
Qed.

Lemma reMatchHere_word (word : string) (rest : list reAtom) :
  forall prev s,
    reMatchHere (wordAtoms word ++ rest) prev s = true <->
    exists u post,
      s = u +:+ post /\ toLowerCase u = toLowerCase word /\
      reMatchHere rest (lastChar prev u) post = true.
Proof.
  induction word as [|c word IH]; intros prev s.
  - simpl. split.
    + intros H. exists "", s. repeat split. exact H.
    + intros (u & post & -> & Hu & H). destruct u; [exact H | discriminate].
  - change (wordAtoms (String c word) ++ rest)
      with (ReChar c :: (wordAtoms word ++ rest)).
    cbn [reMatchHere]. destruct s as [|d s'].
    + split; [discriminate|]. intros (u & post & Hs & Hu & _).
      destruct u; [discriminate|]. rewrite append_cons in Hs. discriminate.
    + rewrite andb_true_iff, Ascii.eqb_eq, IH. split.
      * intros (Hc & u & post & -> & Hu & H). exists (String d u), post.
        rewrite append_cons. simpl. rewrite Hc, Hu. repeat split. exact H.
      * intros (u & post & Hs & Hu & H). destruct u as [|e u]; [discriminate|].
        rewrite append_cons in Hs. injection Hs as -> ->.
        simpl in Hu. injection Hu as Hc Hu. split; [congruence|].
        exists u, post. repeat split; assumption.
Qed.

Lemma reSearch_spec (atoms : list reAtom) :
  forall s prev,
    reSearch atoms prev s = true <->
    exists pre post, s = pre +:+ post /\
                     reMatchHere atoms (lastChar prev pre) post = true.
Proof.
  induction s as [|d s IH]; intros prev.
  - simpl. rewrite orb_false_r. split.
    + intros H. exists "", "". split; [reflexivity | exact H].
    + intros (pre & post & Hs & H). destruct pre; [|rewrite append_cons in Hs; discriminate].
      rewrite append_nil in Hs. subst post. exact H.
  - cbn [reSearch]. rewrite orb_true_iff, IH. split.
    + intros [H | (pre & post & -> & H)].
      * exists "", (String d s). split; [reflexivity | exact H].
      * exists (String d pre), post. rewrite append_cons. split; [reflexivity | exact H].
    + intros (pre & post & Hs & H). destruct pre as [|e pre].
      * left. rewrite append_nil in Hs. subst post. exact H.
      * right. rewrite append_cons in Hs. injection Hs as -> ->.
        exists pre, post. split; [reflexivity | exact H].
Qed.

Lemma toLowerCase_app_fixed (a b : string) :
  toLowerCase (a +:+ b) = a +:+ b -> toLowerCase a = a /\ toLowerCase b = b.
Proof.
  induction a as [|x a IH].
  - rewrite append_nil. intros H. split; [reflexivity | exact H].
  - rewrite append_cons. simpl. intros H. injection H as Hx H.
    destruct (IH H) as [Ha Hb]. split; [now rewrite Hx, Ha | exact Hb].
Qed.

Lemma isPlainWord_facts (word : string) :
  isPlainWord word = true ->
  word <> "" /\ allChars isWordChar word = true /\ toLowerCase word = word.
Proof.
  unfold isPlainWord. rewrite andb_true_iff, negb_true_iff. intros [Hne Hall].
  split; [intros ->; discriminate|]. clear Hne.
  induction word as [|c word IH]; [split; reflexivity|].
  simpl in Hall. rewrite !andb_true_iff, negb_true_iff in Hall.
  destruct Hall as [[Hw Hu] Hall]. destruct (IH Hall) as [IH1 IH2].
  simpl. rewrite Hw, IH1, IH2. unfold lowerChar. rewrite Hu. split; reflexivity.
Qed.

Lemma wordAhead_word (word post : string) :
  allChars isWordChar word = true -> word <> "" -> wordAhead (word +:+ post) = true.
Proof.
  destruct word as [|c word]; [congruence|]. simpl allChars.
  rewrite andb_true_iff. intros [Hc _] _. rewrite append_cons. exact Hc.
Qed.

Lemma lastChar_word (word : string) :
  forall prev,
    allChars isWordChar word = true -> word <> "" ->
    wordBefore (lastChar prev word) = true.
Proof.
  induction word as [|c word IH]; intros prev; [congruence|].
  simpl allChars. rewrite andb_true_iff. intros [Hc Hw] _.
  destruct word as [|d word']; [exact Hc|].
  change (lastChar prev (String c (String d word')))
    with (lastChar (Some c) (String d word')).
  apply IH; [exact Hw | discriminate].
Qed.

(** On a lower-case text, the pattern of a whole word matches exactly when
    the word occurs with no word character right before or after it. *)
Lemma RegExp_test_bounded (word text : string) :
  isPlainWord word = true -> toLowerCase text = text ->
  RegExp_test (bounded word) text = true <->
  exists pre post,
    text = pre +:+ word +:+ post /\
    wordBefore (lastChar None pre) = false /\ wordAhead post = false.
Proof.
  intros Hplain Hlow.
  destruct (isPlainWord_facts word Hplain) as (Hne & Hall & Hw).
  unfold RegExp_test. rewrite (reParse_bounded word Hall), reSearch_spec. split.
  - intros (pre & post0 & Htext & H).
    cbn [reMatchHere] in H. apply andb_true_iff in H as [Hb1 H].
    apply reMatchHere_word in H as (u & post & -> & Hu & H).
    cbn [reMatchHere] in H. rewrite andb_true_r in H.
    assert (u = word) as ->.
    { rewrite Htext in Hlow. apply toLowerCase_app_fixed in Hlow as [_ Hlow].
      apply toLowerCase_app_fixed in Hlow as [Hlow _]. congruence. }
    exists pre, post. split; [exact Htext|].
    rewrite (wordAhead_word word post Hall Hne) in Hb1.
    rewrite (lastChar_word word _ Hall Hne) in H.
    destruct (wordBefore (lastChar None pre)), (wordAhead post);
      simpl in *; split; congruence.
  - intros (pre & post & Htext & Hb & Ha).
    exists pre, (word +:+ post). split; [exact Htext|].
    cbn [reMatchHere]. rewrite Hb, (wordAhead_word word post Hall Hne). simpl.
    apply reMatchHere_word. exists word, post. repeat split.
    cbn [reMatchHere]. rewrite (lastChar_word word _ Hall Hne), Ha. reflexivity.
Qed.

Lemma RegExp_test_standsAlone (word summary : string) :
  isPlainWord word = true ->
  RegExp_test (bounded word) (toLowerCase summary) = true <-> standsAlone word summary.
Proof.
  intros Hplain. unfold standsAlone.
  apply RegExp_test_bounded; [exact Hplain | apply toLowerCase_idem].
Qed.

Lemma existsb_bounded (words : list string) (summary : string) :
  forallb isPlainWord words = true ->
  existsb (fun desc => RegExp_test desc (toLowerCase summary)) (map bounded words) = true
  <-> exists word, In word words /\ standsAlone word summary.
Proof.
  intros Hplain. rewrite forallb_forall in Hplain.
  rewrite existsb_exists. split.
  - intros (desc & Hin & H). apply in_map_iff in Hin as (word & <- & Hin).
    exists word. split; [exact Hin|].
    now apply RegExp_test_standsAlone; [apply Hplain|].
  - intros (word & Hin & H). exists (bounded word). split.
    + apply in_map_iff. eauto.
    + now apply RegExp_test_standsAlone; [apply Hplain|].
Qed.

(** ** The consistency check *)

Lemma frequency_low_patterns : frequencyDescriptors.low = map bounded lowFrequencyWords.
Proof. reflexivity. Qed.

Lemma severity_high_patterns : severityDescriptors.high = map bounded highSeverityWords.
Proof. reflexivity. Qed.

Lemma warnIfAny_In (descs : list string) (s warning w : string) :
  In w (warnIfAny descs s warning) -> w = warning.
Proof.
  unfold warnIfAny. destruct (existsb _ descs); simpl; [|tauto].
  intros [H | []]. now symmetry.
Qed.

Lemma warnIfAny_bounded (words : list string) (summary warning : string) :
  forallb isPlainWord words = true ->
  In warning (warnIfAny (map bounded words) (toLowerCase summary) warning) <->
  exists word, In word words /\ standsAlone word summary.
Proof.
  intros Hplain. rewrite <- (existsb_bounded words summary Hplain).
  unfold warnIfAny. destruct (existsb _ (map bounded words)); simpl.
  - split; [reflexivity | now left].
  - split; [tauto | discriminate].
Qed.

Lemma validateLogicalConsistency_parts summary frequency medianScore :
  validateLogicalConsistency summary frequency medianScore =
  frequencyPart summary frequency ++ severityPart summary medianScore.
Proof. reflexivity. Qed.

Lemma frequencyPart_prefix summary frequency w :
  In w (frequencyPart summary frequency) ->
  startsWith w "Inconsistent frequency" = true.
Proof.
  unfold frequencyPart. intros H.
  destruct (frequency <=? 2); [|destruct (frequency >=? 7); [|destruct H]];
    apply warnIfAny_In in H; subst w; reflexivity.
Qed.

Lemma severityPart_prefix summary medianScore w :
  In w (severityPart summary medianScore) ->
  startsWith w "Inconsistent severity" = true.
Proof.
  unfold severityPart. intros H.
  destruct (Qle_bool medianScore 3); [|destruct (Qle_bool 7 medianScore); [|destruct H]];
    apply warnIfAny_In in H; subst w; reflexivity.
Qed.

Lemma startsWith_shorter (s a b : string) :
  startsWith s (a +:+ b) = true -> startsWith s a = true.
Proof.
  rewrite !startsWith_spec. intros [post ->]. exists (b +:+ post).
  apply append_assoc.
Qed.

Lemma consistency_prefix summary frequency medianScore w :
  In w (validateLogicalConsistency summary frequency medianScore) ->
  startsWith w "Inconsistent" = true.
Proof.
  rewrite validateLogicalConsistency_parts, in_app_iff.
  intros [H | H];
    [apply frequencyPart_prefix in H | apply severityPart_prefix in H].
  - now apply (startsWith_shorter w "Inconsistent" " frequency").
  - now apply (startsWith_shorter w "Inconsistent" " severity").
Qed.

Lemma regionError_shape summary expectedRegion :
  error (validateRegionMention summary expectedRegion) = None \/
  exists rest,
    error (validateRegionMention summary expectedRegion) =
    Some ("Hallucinated region(s) detected: " +:+ rest).
Proof.
  unfold validateRegionMention.
  destruct (negb _ && _)%bool; [left; reflexivity|].
  destruct (_ >? 0); [right; eexists; reflexivity | left; reflexivity].
Qed.

Lemma errors_prefix summary region frequency medianScore period e :
  In e (errors (validateSummary summary region frequency medianScore period)) ->
  startsWith e "Inconsistent" = false.
Proof.
  unfold validateSummary. cbn [errors]. rewrite !in_app_iff.
  intros [H | [H | [H | H]]].
  - destruct (negb (valid _)); [|destruct H]. destruct H as [<- | []].
    destruct (regionError_shape summary region) as [-> | [rest ->]]; reflexivity.
  - destruct (negb (frequencyFound _)); [|destruct H].
    destruct H as [<- | []]. reflexivity.
  - destruct (negb (medianFound _)); [|destruct H].
    destruct H as [<- | []]. reflexivity.
  - destruct (jsLength summary <? 20); [|destruct H].
    destruct H as [<- | []]. reflexivity.
Qed.

(** C8. The consistency check contributes warnings only: each of its
    messages is among the warnings of the verdict and none is among the
    errors.  With a frequency of 7 or more, the frequency-inconsistency
    warning is emitted exactly when a low-frequency descriptor ("low",
    "rare", "infrequent", "occasional", "few", "minimal") stands in the
    text as a whole word; with a median score of 3 or less, the
    severity-inconsistency warning is emitted exactly when a high-severity
    descriptor ("severe", "intense", "extreme", "major", "substantial")
    stands in the text as a whole word.  A descriptor that only occurs
    inside a longer word therefore triggers nothing. *)
Theorem validateLogicalConsistency_warnings summary frequency medianScore :
  (forall w region period,
     In w (validateLogicalConsistency summary frequency medianScore) ->
     In w (warnings (validateSummary summary region frequency medianScore period)) /\
     ~ In w (errors (validateSummary summary region frequency medianScore period))) /\
  (7 <= frequency ->
   In (frequencyWarning frequency "high" "low")
      (validateLogicalConsistency summary frequency medianScore) <->
   exists word, In word lowFrequencyWords /\ standsAlone word summary) /\
  ((medianScore <= 3)%Q ->
   In (severityWarning medianScore "mild" "severe")
      (validateLogicalConsistency summary frequency medianScore) <->
   exists word, In word highSeverityWords /\ standsAlone word summary).
Proof.
  split; [|split].
  - intros w region period Hw. split.
    + unfold validateSummary. cbn [warnings]. apply in_or_app. left.
      destruct (validateLogicalConsistency summary frequency medianScore) as [|x l];
        [destruct Hw | exact Hw].
    + intros He. apply errors_prefix in He. apply consistency_prefix in Hw. congruence.
  - intros Hf. rewrite validateLogicalConsistency_parts, in_app_iff.
    unfold frequencyPart.
    destruct (Z.leb_spec frequency 2) as [Hle|_]; [lia|].
    rewrite Z.geb_leb. destruct (Z.leb_spec 7 frequency) as [_|Hlt]; [|lia].
    rewrite frequency_low_patterns.
    rewrite <- (warnIfAny_bounded lowFrequencyWords summary
                  (frequencyWarning frequency "high" "low") eq_refl).
    split; [intros [H | H]; [exact H|] | now left].
    apply severityPart_prefix in H. discriminate H.
  - intros Hm. rewrite validateLogicalConsistency_parts, in_app_iff.
    unfold severityPart at 1. apply Qle_bool_iff in Hm. rewrite Hm.
    rewrite severity_high_patterns.
    rewrite <- (warnIfAny_bounded highSeverityWords summary
                  (severityWarning medianScore "mild" "severe") eq_refl).
    split; [intros [H | H]; [|exact H] | now right].
    apply frequencyPart_prefix in H. discriminate H.
Qed.

Example consistency_whole_words_only :
  includes (toLowerCase "Neck pain came rarely and severely: 8 entries, 2/10.") "rare" = true /\
  includes (toLowerCase "Neck pain came rarely and severely: 8 entries, 2/10.") "severe" = true /\
  validateLogicalConsistency "Neck pain came rarely and severely: 8 entries, 2/10." 8 2 = [].
Proof. vm_compute. repeat split. Qed.

Example consistency_few_instances :
  validateSummary "You had a few instances of lower back pain with a median score of 6/10."
                  "Lower Back" 10 6 "Last Month" =
  {| isValid := true;
     errors := [];
     warnings := [frequencyWarning 10 "high" "low"] |}.
Proof. vm_compute. reflexivity. Qed.

Lemma consistency_rare_and_severe :
  In (frequencyWarning 8 "high" "low")
     (validateLogicalConsistency "Your neck pain was Rare, never severe: 8 entries, 2/10." 8 2) /\
  In (severityWarning 2 "mild" "severe")
     (validateLogicalConsistency "Your neck pain was Rare, never severe: 8 entries, 2/10." 8 2).
Proof.
  split.
  - apply (proj1 (proj2 (validateLogicalConsistency_warnings
             "Your neck pain was Rare, never severe: 8 entries, 2/10." 8 2))); [lia|].
    exists "rare". split; [vm_compute; tauto|].
    exists "your neck pain was ", ", never severe: 8 entries, 2/10.".
    repeat split.
  - apply (proj2 (proj2 (validateLogicalConsistency_warnings
             "Your neck pain was Rare, never severe: 8 entries, 2/10." 8 2)));
      [vm_compute; discriminate|].
    exists "severe". split; [vm_compute; tauto|].
    exists "your neck pain was rare, never ", ": 8 entries, 2/10.".
    repeat split.
Defined.

(** ** The numeric check *)

Lemma Z_toString_nonempty (n : Z) : Z_toString n <> "".
Proof.
  unfold Z_toString.
  destruct (Z.to_int n) as [d|d]; simpl; [|discriminate].
  destruct d; discriminate.
Qed.

Lemma string_of_uint_lowercase (d : Decimal.uint) :
  toLowerCase (NilEmpty.string_of_uint d) = NilEmpty.string_of_uint d.
Proof. induction d; simpl; try rewrite IHd; reflexivity. Qed.

Lemma Z_toString_lowercase (n : Z) : toLowerCase (Z_toString n) = Z_toString n.
Proof.
  unfold Z_toString.
  destruct (Z.to_int n) as [d|d]; simpl.
  - destruct d; try reflexivity; apply (string_of_uint_lowercase _).
  - f_equal. destruct d; try reflexivity; apply (string_of_uint_lowercase _).
Qed.

Lemma filterBoolean_cons (s : string) (l : list (option string)) :
  s <> "" -> filterBoolean (Some s :: l) = s :: filterBoolean l.
Proof.
  intros H. simpl. destruct (String.eqb_spec s ""); [contradiction | reflexivity].
Qed.

Lemma append_nonempty (a b : string) : a <> "" -> a +:+ b <> "".
Proof. destruct a; [congruence|]. intros _. rewrite append_cons. discriminate. Qed.

Lemma includes_longer (s a b : string) :
  includes s (toLowerCase (a +:+ b)) = true -> includes s (toLowerCase a) = true.
Proof.
  rewrite toLowerCase_app, !includes_spec. apply occursIn_prefix.
Qed.

Lemma numberWordAt_none (n : Z) : n < 0 \/ 11 <= n -> numberWordAt n = None.
Proof.
  intros H. unfold numberWordAt.
  destruct (Z.ltb_spec n 0) as [_|Hn]; [reflexivity|].
  apply lookup_ge_None. simpl. lia.
Qed.

Lemma numberWords_plain (word : string) :
  In word numberWords -> word <> "" /\ toLowerCase word = word.
Proof.
  assert (H : forallb (fun w => negb (String.eqb w "") && String.eqb (toLowerCase w) w)
                      numberWords = true) by reflexivity.
  rewrite forallb_forall in H. intros Hin. specialize (H word Hin).
  apply andb_true_iff in H as [Hne Hlow]. split.
  - intros ->. discriminate.
  - now apply String.eqb_eq.
Qed.

Lemma numberWordAt_some (n : Z) :
  0 <= n <= 10 ->
  exists word,
    numberWordAt n = Some word /\ numberWords !! Z.to_nat n = Some word /\
    word <> "" /\ toLowerCase word = word.
Proof.
  intros H. unfold numberWordAt.
  destruct (Z.ltb_spec n 0) as [Hneg|_]; [lia|].
  destruct (lookup_lt_is_Some_2 numberWords (Z.to_nat n)) as [word Hw]; [simpl; lia|].
  exists word. split; [exact Hw|]. split; [exact Hw|].
  apply numberWords_plain, list_elem_of_In, (list_elem_of_lookup_2 _ _ _ Hw).
Qed.

Lemma frequencyFound_digits summary frequency medianScore :
  occursIn (Z_toString frequency) (toLowerCase summary) ->
  frequencyFound (validateNumericalData summary frequency medianScore) = true.
Proof.
  intros H. unfold validateNumericalData. cbn [frequencyFound].
  rewrite (filterBoolean_cons _ _ (Z_toString_nonempty frequency)).
  cbn [existsb]. rewrite Z_toString_lowercase.
  apply includes_spec in H. now rewrite H.
Qed.

Lemma frequencyFound_inv summary frequency medianScore :
  frequencyFound (validateNumericalData summary frequency medianScore) = true ->
  occursIn (Z_toString frequency) (toLowerCase summary) \/
  exists word, numberWordAt frequency = Some word /\
               occursIn (toLowerCase word) (toLowerCase summary).
Proof.
  unfold validateNumericalData. cbn [frequencyFound].
  pose proof (Z_toString_nonempty frequency) as Hne.
  rewrite !filterBoolean_cons by (try apply append_nonempty; exact Hne).
  cbn [existsb]. rewrite !orb_true_iff.
  intros [H | [H | [H | [H | [H | H]]]]];
    try (apply includes_longer in H);
    try (left; apply includes_spec; rewrite <- (Z_toString_lowercase frequency); exact H).
  right. destruct (numberWordAt frequency) as [word|]; [|discriminate H].
  exists word. split; [reflexivity|].
  simpl in H. destruct (String.eqb word ""); [discriminate H|].
  simpl in H. rewrite orb_false_r in H. now apply includes_spec.
Qed.

Lemma frequencyFound_word summary frequency medianScore word :
  numberWordAt frequency = Some word -> word <> "" ->
  occursIn (toLowerCase word) (toLowerCase summary) ->
  frequencyFound (validateNumericalData summary frequency medianScore) = true.
Proof.
  intros Hw Hne H. unfold validateNumericalData. cbn [frequencyFound].
  pose proof (Z_toString_nonempty frequency) as Hd.
  rewrite !filterBoolean_cons by (try apply append_nonempty; exact Hd).
  rewrite Hw, (filterBoolean_cons _ _ Hne).
  cbn [existsb filterBoolean]. apply includes_spec in H. rewrite H.
  rewrite !orb_true_r. reflexivity.
Qed.

(** C10. In the frequency sub-check of [validateNumericalData] the number
    words reach from "zero" to "ten" only.  For a frequency of 11 or more
    there is no number word (the entry is undefined and filtered out), and
    the sub-check passes exactly when the digits of the frequency occur in
    the lower-cased text (the collocations all begin with those digits).
    For a frequency from 0 to 10 the number word exists, and its occurrence
    in the text is enough for the sub-check to pass. *)
Theorem validateNumericalData_number_words summary frequency medianScore :
  (11 <= frequency ->
   numberWordAt frequency = None /\
   (frequencyFound (validateNumericalData summary frequency medianScore) = true <->
    occursIn (Z_toString frequency) (toLowerCase summary))) /\
  (0 <= frequency <= 10 ->
   exists word,
     numberWords !! Z.to_nat frequency = Some word /\
     numberWordAt frequency = Some word /\
     (occursIn word (toLowerCase summary) ->
      frequencyFound (validateNumericalData summary frequency medianScore) = true) /\
     (frequencyFound (validateNumericalData summary frequency medianScore) = true <->
      occursIn (Z_toString frequency) (toLowerCase summary) \/
      occursIn word (toLowerCase summary))).
Proof.
  split.
  - intros Hf.
    assert (Hnone : numberWordAt frequency = None) by (apply numberWordAt_none; lia).
    split; [exact Hnone|]. split.
    + intros H. apply frequencyFound_inv in H as [H | (word & Hw & _)]; [exact H|].
      congruence.
    + apply frequencyFound_digits.
  - intros Hf. destruct (numberWordAt_some frequency Hf) as (word & Hw & Hnth & Hne & Hlow).
    exists word. split; [exact Hnth|]. split; [exact Hw|]. split.
    + intros H. apply (frequencyFound_word _ _ _ word Hw Hne). now rewrite Hlow.
    + split.
      * intros H. apply frequencyFound_inv in H as [H | (word' & Hw' & H)]; [now left|].
        right. assert (word' = word) as -> by congruence. now rewrite Hlow in H.
      * intros [H | H]; [now apply frequencyFound_digits|].
        apply (frequencyFound_word _ _ _ word Hw Hne). now rewrite Hlow.
Qed.

Example number_word_accepted :
  frequencyFound (validateNumericalData "You logged four entries, median 6/10." 4 6) = true /\
  frequencyFound (validateNumericalData "You logged twelve entries, median 6/10." 12 6) = false /\
  frequencyFound (validateNumericalData "You logged 12 entries, median 6/10." 12 6) = true.
Proof. vm_compute. repeat split. Qed.

Lemma number_words_witness :
  (frequencyFound (validateNumericalData "You logged twelve entries." 12 6) = true <->
   occursIn "12" (toLowerCase "You logged twelve entries.")) /\
  frequencyFound (validateNumericalData "You logged four entries." 4 6) = true.
Proof.
  split.
  - apply (proj1 (validateNumericalData_number_words "You logged twelve entries." 12 6)).
    lia.
  - destruct (proj2 (validateNumericalData_number_words "You logged four entries." 4 6))
      as (word & Hnth & _ & Hword & _); [lia|].
    apply Hword. injection Hnth as <-.
    exists "you logged ", " entries.". reflexivity.
Defined.

(** ** The retry loop *)

Section Orchestration.

Variable service : nat -> ServiceReply.
Variable self : Generator.t.
Variables (period region : string) (frequency : Z) (medianScore : Q).
Variable options : SummaryOptions.t.

Local Abbreviation maxRetries := (effectiveMaxRetries self options).
Local Abbreviation retryDelay := (effectiveRetryDelay self options).
Local Abbreviation fallbackEnabled := (notFalse (SummaryOptions.fallbackEnabled options)).
Local Abbreviation enableValidation := (notFalse (SummaryOptions.enableValidation options)).
Local Abbreviation fallback := (generateFallbackSummary period region frequency medianScore).
Local Abbreviation verdict text :=
  (validateSummary text region frequency medianScore period).
Local Abbreviation attempt_ :=
  (oneAttempt service self period region frequency medianScore options).
Local Abbreviation loop :=
  (attemptLoop service self period region frequency medianScore options).

Lemma callGeminiAPI_candidate (w : World) (text : string) :
  candidateAt service (requests w) = Some text ->
  callGeminiAPI service w = (Returned text, sent w).
Proof.
  unfold candidateAt, callGeminiAPI.
  destruct (service (requests w)) as [response|message]; [|discriminate].
  destruct (String.eqb (trim response) ""); [discriminate|].
  intros H. injection H as <-. reflexivity.
Qed.

Lemma callGeminiAPI_no_candidate (w : World) :
  candidateAt service (requests w) = None ->
  exists message, callGeminiAPI service w = (Thrown message, sent w).
Proof.
  unfold candidateAt, callGeminiAPI.
  destruct (service (requests w)) as [response|message].
  - destruct (String.eqb (trim response) ""); [|discriminate].
    intros _. eexists. reflexivity.
  - intros _. eexists. reflexivity.
Qed.

Lemma isValid_iff (text : string) :
  isValid (verdict text) = true <-> errors (verdict text) = [].
Proof.
  unfold validateSummary. cbn [isValid errors].
  rewrite Z.eqb_eq. split.
  - intros H. apply length_zero_iff_nil. lia.
  - intros ->. reflexivity.
Qed.

Lemma invalid_has_errors (text : string) :
  isValid (verdict text) = false ->
  (Z.of_nat (List.length (errors (verdict text))) >? 0) = true.
Proof.
  intros H. destruct (errors (verdict text)) eqn:E.
  - apply isValid_iff in E. congruence.
  - reflexivity.
Qed.

(** What one turn does when the request yields a candidate. *)
Lemma oneAttempt_candidate (attempt : Z) (w : World) (text : string) :
  candidateAt service (requests w) = Some text ->
  attempt_ attempt w =
  if (enableValidation && negb (isValid (verdict text)))%bool then
    if attempt <? maxRetries then (Returned Continue, delayed (sent w) retryDelay)
    else if fallbackEnabled then (Returned (Return fallback), sent w)
    else (Returned (Return text), sent w)
  else (Returned (Return text), sent w).
Proof.
  intros Hc. unfold oneAttempt, tryCatch, tryBlock, bind.
  rewrite (callGeminiAPI_candidate w text Hc).
  destruct enableValidation; [|reflexivity]. cbn [andb].
  destruct (isValid (verdict text)) eqn:Ev; [reflexivity|]. cbn [negb].
  rewrite (invalid_has_errors text Ev). cbn [andb].
  destruct (attempt <? maxRetries); [reflexivity|].
  destruct fallbackEnabled; reflexivity.
Qed.

(** What one turn does when the request yields no candidate. *)
Lemma oneAttempt_no_candidate (attempt : Z) (w : World) :
  candidateAt service (requests w) = None ->
  exists message,
    attempt_ attempt w =
    if attempt =? maxRetries then
      if fallbackEnabled then (Returned (Return fallback), sent w)
      else (Thrown ("Failed to generate summary after " +:+ Z_toString maxRetries
                    +:+ " attempts: " +:+ message), sent w)
    else (Returned Continue, delayed (sent w) (retryDelay * attempt)).
Proof.
  intros Hc. destruct (callGeminiAPI_no_candidate w Hc) as [message Hm].
  exists message. unfold oneAttempt, tryCatch, tryBlock, bind. rewrite Hm.
  unfold catchBlock. destruct (attempt =? maxRetries).
  - destruct fallbackEnabled; reflexivity.
  - reflexivity.
Qed.

Lemma attemptLoop_step (remaining : nat) (attempt : Z) (w : World) :
  loop (S remaining) attempt w =
  match attempt_ attempt w with
  | (Returned Continue, w') => loop remaining (attempt + 1) w'
  | (Returned (Return summary), w') => (Returned summary, w')
  | (Thrown message, w') => (Thrown message, w')
  end.
Proof.
  cbn [attemptLoop]. unfold bind at 1, oneAttempt.
  destruct (tryCatch _ _ w) as [[[|summary]|message] w']; reflexivity.
Qed.

Lemma isValid_false (text : string) :
  errors (verdict text) <> [] -> isValid (verdict text) = false.
Proof.
  intros H. destruct (isValid (verdict text)) eqn:E; [|reflexivity].
  apply isValid_iff in E. contradiction.
Qed.

(** While attempts remain, an attempt without an acceptable candidate leads
    to the next one; so a run of failures reaches the last attempt. *)
Lemma attemptLoop_reaches_last (r : nat) :
  forall (attempt : Z) (w : World),
    attempt + Z.of_nat r = maxRetries ->
    enableValidation = true ->
    (forall k text,
       (requests w <= k < requests w + r)%nat ->
       candidateAt service k = Some text ->
       errors (verdict text) <> []) ->
    exists delays,
      loop (S r) attempt w =
      loop 1 maxRetries {| requests := requests w + r; waited := delays |}.
Proof.
  induction r as [|r IH]; intros attempt w Hlast Hval Hbad.
  - exists (waited w). replace attempt with maxRetries by lia.
    rewrite Nat.add_0_r. destruct w; reflexivity.
  - assert (Hlt : (attempt <? maxRetries) = true) by (apply Z.ltb_lt; lia).
    assert (Hneq : (attempt =? maxRetries) = false) by (apply Z.eqb_neq; lia).
    assert (Hnext :
      exists ms, loop (S (S r)) attempt w = loop (S r) (attempt + 1) (delayed (sent w) ms)).
    { rewrite attemptLoop_step.
      destruct (candidateAt service (requests w)) as [text|] eqn:Hc.
      - rewrite (oneAttempt_candidate attempt w text Hc), Hval.
        rewrite (isValid_false text) by (apply (Hbad (requests w)); [lia | exact Hc]).
        cbn [andb negb]. rewrite Hlt. eexists. reflexivity.
      - destruct (oneAttempt_no_candidate attempt w Hc) as [message ->].
        rewrite Hneq. eexists. reflexivity. }
    destruct Hnext as [ms ->].
    destruct (IH (attempt + 1) (delayed (sent w) ms)) as [delays ->].
    + lia.
    + exact Hval.
    + intros k text Hk. apply Hbad. simpl in Hk. lia.
    + exists delays. simpl requests.
      replace (requests w + S r)%nat with (S (requests w + r)) by lia. reflexivity.
Qed.

(** If no attempt yields an acceptable candidate and the fallback is
    enabled, the run makes as many requests as the budget allows and
    returns the fallback text. *)
Lemma summariseWithAI_exhausted_falls_back :
  1 <= maxRetries ->
  fallbackEnabled = true ->
  enableValidation = true ->
  (forall k text,
     (k < Z.to_nat maxRetries)%nat ->
     candidateAt service k = Some text ->
     errors (verdict text) <> []) ->
  exists delays,
    summariseWithAI service self period region frequency medianScore options
                    initialWorld =
    (Returned fallback, {| requests := Z.to_nat maxRetries; waited := delays |}).
Proof.
  intros Hmax Hfb Hval Hbad. unfold summariseWithAI.
  destruct (Z.to_nat maxRetries) as [|r] eqn:Er; [lia|].
  destruct (attemptLoop_reaches_last r 1 initialWorld) as [delays ->].
  - lia.
  - exact Hval.
  - intros k text Hk. apply Hbad. simpl in Hk. lia.
  - change (requests initialWorld + r)%nat with r. rewrite attemptLoop_step.
    set (w := {| requests := r; waited := delays |}).
    destruct (candidateAt service (requests w)) as [text|] eqn:Hc.
    + rewrite (oneAttempt_candidate maxRetries w text Hc), Hval.
      rewrite (isValid_false text) by (apply (Hbad r); [lia | exact Hc]).
      cbn [andb negb]. rewrite Z.ltb_irrefl, Hfb. eexists. reflexivity.
    + destruct (oneAttempt_no_candidate maxRetries w Hc) as [message ->].
      rewrite Z.eqb_refl, Hfb. eexists. reflexivity.
Qed.

(** With the fallback disabled, a last attempt whose candidate has
    validation errors hands that candidate back to the caller. *)
Lemma summariseWithAI_hands_back_rejected (text : string) :
  1 <= maxRetries ->
  fallbackEnabled = false ->
  enableValidation = true ->
  (forall k text',
     (k < Z.to_nat maxRetries - 1)%nat ->
     candidateAt service k = Some text' ->
     errors (verdict text') <> []) ->
  candidateAt service (Z.to_nat maxRetries - 1) = Some text ->
  errors (verdict text) <> [] ->
  exists delays,
    summariseWithAI service self period region frequency medianScore options
                    initialWorld =
    (Returned text, {| requests := Z.to_nat maxRetries; waited := delays |}).
Proof.
  intros Hmax Hfb Hval Hbad Hc Herr. unfold summariseWithAI.
  destruct (Z.to_nat maxRetries) as [|r] eqn:Er; [lia|].
  replace (S r - 1)%nat with r in * by lia.
  destruct (attemptLoop_reaches_last r 1 initialWorld) as [delays ->].
  - lia.
  - exact Hval.
  - intros k text' Hk. apply Hbad. simpl in Hk. lia.
  - change (requests initialWorld + r)%nat with r. rewrite attemptLoop_step.
    set (w := {| requests := r; waited := delays |}).
    rewrite (oneAttempt_candidate maxRetries w text Hc), Hval.
    rewrite (isValid_false text Herr).
    cbn [andb negb]. rewrite Z.ltb_irrefl, Hfb. eexists. reflexivity.
Qed.

(** C6. When the first request yields a candidate whose verdict has no
    errors, the run returns that candidate verbatim after this single
    request and without waiting; nothing is assumed about the warnings of
    the verdict, so they cause neither a retry nor the fallback. *)
Theorem summariseWithAI_accepts_first (text : string) :
  1 <= maxRetries ->
  candidateAt service 0 = Some text ->
  errors (verdict text) = [] ->
  summariseWithAI service self period region frequency medianScore options
                  initialWorld =
  (Returned text, {| requests := 1; waited := [] |}).
Proof.
  intros Hmax Hc Herr. unfold summariseWithAI.
  destruct (Z.to_nat maxRetries) as [|r] eqn:Er; [lia|].
  rewrite attemptLoop_step, (oneAttempt_candidate 1 initialWorld text Hc).
  apply isValid_iff in Herr. rewrite Herr, andb_false_r. reflexivity.
Qed.

End Orchestration.

(** C1. With an attempt budget of 3 and the fallback enabled, a run in
    which every candidate the service returns fails validation with at
    least one error sends exactly 3 requests and returns the text of
    [generateFallbackSummary] for the same inputs. *)
Theorem summariseWithAI_three_attempts_then_fallback
    service self period region frequency medianScore options :
  effectiveMaxRetries self options = 3 ->
  notFalse (SummaryOptions.fallbackEnabled options) = true ->
  notFalse (SummaryOptions.enableValidation options) = true ->
  (forall k text,
     (k < 3)%nat ->
     candidateAt service k = Some text ->
     errors (validateSummary text region frequency medianScore period) <> []) ->
  exists delays,
    summariseWithAI service self period region frequency medianScore options
                    initialWorld =
    (Returned (generateFallbackSummary period region frequency medianScore),
     {| requests := 3; waited := delays |}).
Proof.
  intros Hmax Hfb Hval Hbad.
  destruct (summariseWithAI_exhausted_falls_back service self period region
              frequency medianScore options) as [delays H];
    rewrite ?Hmax; try assumption; [lia|].
  exists delays. rewrite Hmax in H. exact H.
Qed.

Lemma three_attempts_then_fallback_sample :
  exists delays,
    summariseWithAI (alwaysReplies "Too short.") (constructor defaultConfig)
                    "Last Week" "Neck" 3 6 SummaryOptions.empty initialWorld =
    (Returned (generateFallbackSummary "Last Week" "Neck" 3 6),
     {| requests := 3; waited := delays |}).
Proof.
  apply summariseWithAI_three_attempts_then_fallback; try reflexivity.
  intros k text _ H. vm_compute in H. injection H as <-.
  vm_compute. discriminate.
Defined.

Example three_attempts_then_fallback_run :
  summariseWithAI (alwaysReplies "Too short.") (constructor defaultConfig)
                  "Last Week" "Neck" 3 6 SummaryOptions.empty initialWorld =
  (Returned "During last week, you recorded 3 pain entries for your neck, with a median pain level of 6/10 (moderate to severe). This data helps track your pain patterns over time.",
   {| requests := 3; waited := [1000; 1000] |}).
Proof. vm_compute. reflexivity. Qed.

Lemma accepts_first_with_warnings :
  warnings (validateSummary
              "You had a few instances of lower back pain with a median score of 6/10."
              "Lower Back" 10 6 "Last Month") <> [] /\
  summariseWithAI
    (alwaysReplies "You had a few instances of lower back pain with a median score of 6/10.")
    (constructor defaultConfig) "Last Month" "Lower Back" 10 6 SummaryOptions.empty
    initialWorld =
  (Returned "You had a few instances of lower back pain with a median score of 6/10.",
   {| requests := 1; waited := [] |}).
Proof.
  split; [vm_compute; discriminate|].
  apply summariseWithAI_accepts_first; [vm_compute; discriminate | reflexivity..].
Defined.

(** C2. With the fallback disabled and a budget of 2 attempts, a service
    whose every candidate mentions a foreign region is asked twice; the
    verdict of the last attempt has an error, and the run returns that
    rejected candidate to the caller instead of raising a failure. *)
Theorem summariseWithAI_returns_rejected_candidate :
  let text := "Your neck and back pain was recorded 3 times with a score of 6/10." in
  errors (validateSummary text "Neck" 3 6 "Last Week") =
    [ "Hallucinated region(s) detected: " +:+ dquote +:+ "back" +:+ dquote
      +:+ " (expected only " +:+ dquote +:+ "Neck" +:+ dquote +:+ ")" ] /\
  summariseWithAI (alwaysReplies text) (constructor testConfig)
                  "Last Week" "Neck" 3 6 noFallback initialWorld =
  (Returned text, {| requests := 2; waited := [1000] |}).
Proof. vm_compute. split; reflexivity. Qed.

Example summariseWithAI_transport_failure_raises :
  summariseWithAI (alwaysFails "network down") (constructor testConfig)
                  "Last Week" "Neck" 3 6 noFallback initialWorld =
  (Thrown "Failed to generate summary after 2 attempts: network down",
   {| requests := 2; waited := [1000] |}).
Proof. vm_compute. reflexivity. Qed.

Example summariseWithAI_blank_reply_raises :
  summariseWithAI (alwaysReplies "   ") (constructor testConfig)
                  "Last Week" "Neck" 3 6 noFallback initialWorld =
  (Thrown "Failed to generate summary after 2 attempts: Empty response from Gemini API",
   {| requests := 2; waited := [1000] |}).
Proof. vm_compute. reflexivity. Qed.

(** ** Zero-valued options *)

Lemma orNumber_dropZero (x : option Z) (d : Z) : orNumber (dropZero x) d = orNumber x d.
Proof.
  destruct x as [n|]; [|reflexivity]. simpl.
  destruct (Z.eqb_spec n 0) as [->|Hn]; [reflexivity|].
  simpl. destruct (Z.eqb_spec n 0); [contradiction | reflexivity].
Qed.

Lemma orNumber_nonzero (x : option Z) (d : Z) : d <> 0 -> orNumber x d <> 0.
Proof.
  intros Hd. destruct x as [n|]; [|exact Hd]. simpl.
  destruct (Z.eqb_spec n 0); assumption.
Qed.

Lemma attemptLoop_same_settings service self period region frequency medianScore
    (options options' : SummaryOptions.t) :
  effectiveMaxRetries self options = effectiveMaxRetries self options' ->
  effectiveRetryDelay self options = effectiveRetryDelay self options' ->
  notFalse (SummaryOptions.fallbackEnabled options) =
    notFalse (SummaryOptions.fallbackEnabled options') ->
  notFalse (SummaryOptions.enableValidation options) =
    notFalse (SummaryOptions.enableValidation options') ->
  forall remaining attempt w,
    attemptLoop service self period region frequency medianScore options
                remaining attempt w =
    attemptLoop service self period region frequency medianScore options'
                remaining attempt w.
Proof.
  intros Hm Hd Hf Hv. induction remaining as [|r IH]; intros attempt w; [reflexivity|].
  rewrite !attemptLoop_step.
  assert (Hone :
    oneAttempt service self period region frequency medianScore options attempt w =
    oneAttempt service self period region frequency medianScore options' attempt w).
  { unfold oneAttempt, tryCatch, tryBlock, catchBlock. cbv zeta.
    rewrite Hm, Hd, Hf, Hv. reflexivity. }
  rewrite Hone.
  destruct (oneAttempt _ _ _ _ _ _ options' attempt w) as [[[|summary]|message] w'];
    [apply IH | reflexivity | reflexivity].
Qed.

(** C9. A call of [summariseWithAI] that passes 0 as [maxRetries] or as
    [retryDelay] works with the value of the instance instead, and runs
    exactly as if the field had been left out.  The instance holds the
    value of the constructor's configuration, 3 attempts and 1000 ms when
    the configuration leaves them out (or gives 0), never 0; so neither
    the attempt budget nor the delay a call works with can be 0. *)
Theorem zero_options_are_unset config options :
  let self := constructor config in
  (SummaryOptions.maxRetries options = Some 0 ->
   effectiveMaxRetries self options = Generator.maxRetries self) /\
  (SummaryOptions.retryDelay options = Some 0 ->
   effectiveRetryDelay self options = Generator.retryDelay self) /\
  (forall service period region frequency medianScore w,
     summariseWithAI service self period region frequency medianScore options w =
     summariseWithAI service self period region frequency medianScore
                     (withoutZeros options) w) /\
  Generator.maxRetries self = orNumber (Config.maxRetries config) 3 /\
  Generator.retryDelay self = orNumber (Config.retryDelay config) 1000 /\
  (Config.maxRetries config = None -> Generator.maxRetries self = 3) /\
  (Config.retryDelay config = None -> Generator.retryDelay self = 1000) /\
  effectiveMaxRetries self options <> 0 /\
  effectiveRetryDelay self options <> 0.
Proof.
  intros self.
  assert (Hm : effectiveMaxRetries self (withoutZeros options) =
               effectiveMaxRetries self options)
    by apply orNumber_dropZero.
  assert (Hd : effectiveRetryDelay self (withoutZeros options) =
               effectiveRetryDelay self options)
    by apply orNumber_dropZero.
  repeat split.
  - unfold effectiveMaxRetries. intros ->. reflexivity.
  - unfold effectiveRetryDelay. intros ->. reflexivity.
  - intros service period region frequency medianScore w. unfold summariseWithAI.
    rewrite Hm.
    apply attemptLoop_same_settings; [now rewrite Hm | now rewrite Hd | reflexivity..].
  - simpl. intros ->. reflexivity.
  - simpl. intros ->. reflexivity.
  - apply orNumber_nonzero, orNumber_nonzero. discriminate.
  - apply orNumber_nonzero, orNumber_nonzero. discriminate.
Qed.

Lemma zero_options_default_instance :
  effectiveMaxRetries (constructor defaultConfig) zeroOptions = 3 /\
  effectiveRetryDelay (constructor defaultConfig) zeroOptions = 1000.
Proof.
  destruct (zero_options_are_unset defaultConfig zeroOptions)
    as (Hm & Hd & _ & _ & _ & Hm3 & Hd3 & _).
  split.
  - rewrite (Hm eq_refl). apply Hm3. reflexivity.
  - rewrite (Hd eq_refl). apply Hd3. reflexivity.
Defined.

Example zero_options_configured_instance :
  effectiveMaxRetries (constructor testConfig) zeroOptions = 2 /\
  summariseWithAI (alwaysReplies "Too short.") (constructor testConfig)
                  "Last Week" "Neck" 3 6 zeroOptions initialWorld =
  (Returned (generateFallbackSummary "Last Week" "Neck" 3 6),
   {| requests := 2; waited := [1000] |}).
Proof. vm_compute. split; reflexivity. Qed.

(** * Further properties *)

(** ** The date range and the locality of the statistics *)

Lemma insertBy_sorted_by {A} (compare : A -> A -> Q) (R : A -> A -> Prop) :
  (forall a b, Qle_bool (compare a b) 0 = true -> R a b) ->
  (forall a b, Qle_bool (compare a b) 0 = false -> R b a) ->
  forall x l, Sorted R l -> Sorted R (insertBy compare x l).
Proof.
  intros Hle Hgt x l. induction 1 as [|y l Hl IH Hhd]; simpl.
  - repeat constructor.
  - destruct (Qle_bool (compare x y) 0) eqn:E.
    + apply Hle in E. repeat constructor; assumption.
    + apply Hgt in E. constructor; [exact IH|].
      destruct l as [|z l]; simpl.
      * constructor. exact E.
      * destruct (Qle_bool (compare x z) 0); constructor;
          [exact E | now inversion Hhd].
Qed.

Lemma sortBy_timestamps_sorted (l : list Date) :
  Sorted notAfter (sortBy (fun a b => inject_Z (getTime a - getTime b)) l).
Proof.
  induction l as [|x l IH]; simpl; [constructor|].
  apply insertBy_sorted_by; [| |exact IH]; intros a b H; unfold notAfter.
  - apply Qle_bool_iff in H. unfold Qle in H. simpl in H. lia.
  - destruct (Z.le_gt_cases (getTime b) (getTime a)) as [Hle|Hgt]; [exact Hle|].
    assert (Ht : Qle_bool (inject_Z (getTime a - getTime b)) 0 = true)
      by (apply Qle_bool_iff; unfold Qle; simpl; lia).
    congruence.
Qed.

Lemma notAfter_trans : Relations_1.Transitive notAfter.
Proof. intros a b c. unfold notAfter. lia. Qed.

Lemma sorted_last_is_latest (l : list Date) :
  StronglySorted notAfter l ->
  forall d x, In x l -> notAfter x (List.last l d).
Proof.
  induction 1 as [|y l Hs IH Hy]; intros d x Hin; [destruct Hin|].
  destruct l as [|z l].
  - destruct Hin as [<- | []]. unfold notAfter. simpl. lia.
  - change (List.last (y :: z :: l) d) with (List.last (z :: l) d).
    destruct Hin as [<- | Hin]; [|now apply IH].
    rewrite Forall_forall in Hy.
    assert (Hyz : notAfter y z) by (apply Hy; left).
    assert (Hz : notAfter z (List.last (z :: l) d)) by (apply IH; left; reflexivity).
    unfold notAfter in *. lia.
Qed.

Lemma last_In {A} (l : list A) (d : A) : l <> [] -> In (List.last l d) l.
Proof.
  induction l as [|x l IH]; [congruence|]. intros _.
  destruct l as [|y l]; [left; reflexivity|].
  right. apply IH. discriminate.
Qed.

Lemma regionStatistics_dateRange period region (matches : list BodyMap.t) :
  let summary := regionStatistics period region matches in
  (RegionSummary.dateRange summary = None <-> matches = []) /\
  (forall range,
     RegionSummary.dateRange summary = Some range ->
     In (range_start range) (map BodyMap.timestamp matches) /\
     In (range_end range) (map BodyMap.timestamp matches) /\
     forall e, In e matches ->
               getTime (range_start range) <= getTime (BodyMap.timestamp e)
               <= getTime (range_end range)).
Proof.
  intros summary. subst summary. unfold regionStatistics.
  set (stamps := sortBy (fun a b => inject_Z (getTime a - getTime b))
                        (map BodyMap.timestamp matches)).
  assert (Hperm : Permutation stamps (map BodyMap.timestamp matches))
    by apply sortBy_perm.
  assert (Hsorted : StronglySorted notAfter stamps)
    by (apply (Sorted_StronglySorted notAfter_trans), sortBy_timestamps_sorted).
  destruct matches as [|e0 rest] eqn:Em.
  - simpl. split; [tauto | discriminate].
  - destruct (Z.eqb_spec (Z.of_nat (List.length (e0 :: rest))) 0) as [E|_];
      [simpl in E; lia|].
    cbn [RegionSummary.dateRange].
    destruct stamps as [|first others] eqn:Es.
    { apply Permutation_length in Hperm. simpl in Hperm. lia. }
    split; [split; discriminate|].
    intros range Hr. injection Hr as <-. cbn [range_start range_end].
    assert (Hin : forall t, In t (first :: others) <->
                            In t (map BodyMap.timestamp (e0 :: rest))).
    { intros t. split; intros H.
      - eapply Permutation_in; [exact Hperm | exact H].
      - eapply Permutation_in; [symmetry; exact Hperm | exact H]. }
    split; [apply Hin; left; reflexivity|].
    split; [apply Hin; exact (last_In (first :: others) first ltac:(discriminate))|].
    intros e He.
    assert (Ht : In (BodyMap.timestamp e) (first :: others))
      by (apply Hin, in_map, He).
    split.
    + destruct Ht as [<- | Ht]; [lia|].
      apply StronglySorted_inv in Hsorted as [_ Hall].
      rewrite Forall_forall in Hall. apply Hall, list_elem_of_In, Ht.
    + exact (sorted_last_is_latest _ Hsorted first _ Ht).
Qed.

(** X1. Where [sumRegion] returns (the period is not a name the mapping
    merely inherits), it gives a date range exactly when some entry
    matches; the two ends of the range are timestamps of matching entries,
    and the timestamp of every matching entry lies between them. *)
Theorem sumRegion_dateRange_spans period maps region :
  ~ inheritedOnly maps period ->
  exists summary,
    sumRegion period maps region = Returned summary /\
    (RegionSummary.dateRange summary = None <->
     matchingEntries period maps region = []) /\
    (forall range,
       RegionSummary.dateRange summary = Some range ->
       In (range_start range)
          (map BodyMap.timestamp (matchingEntries period maps region)) /\
       In (range_end range)
          (map BodyMap.timestamp (matchingEntries period maps region)) /\
       forall e, In e (matchingEntries period maps region) ->
                 getTime (range_start range) <= getTime (BodyMap.timestamp e)
                 <= getTime (range_end range)).
Proof.
  intros Hown.
  exists (regionStatistics period region (matchingEntries period maps region)).
  split; [now apply sumRegion_returns|].
  apply regionStatistics_dateRange.
Qed.

Lemma dateRange_spans_sample :
  exists summary,
    sumRegion "Week 1" sampleWeek "Lower Back" = Returned summary /\
    (RegionSummary.dateRange summary = None <->
     matchingEntries "Week 1" sampleWeek "Lower Back" = []) /\
    (forall range,
       RegionSummary.dateRange summary = Some range ->
       In (range_start range)
          (map BodyMap.timestamp (matchingEntries "Week 1" sampleWeek "Lower Back")) /\
       In (range_end range)
          (map BodyMap.timestamp (matchingEntries "Week 1" sampleWeek "Lower Back")) /\
       forall e, In e (matchingEntries "Week 1" sampleWeek "Lower Back") ->
                 getTime (range_start range) <= getTime (BodyMap.timestamp e)
                 <= getTime (range_end range)).
Proof.
  apply (sumRegion_dateRange_spans "Week 1" sampleWeek "Lower Back").
  intros [Hnone _]. vm_compute in Hnone. discriminate.
Defined.



(** ** Bounds of the median *)

Lemma lookup_In {A} (l : list A) (k : nat) (x : A) : l !! k = Some x -> In x l.
Proof. intros H. apply list_elem_of_In, (list_elem_of_lookup_2 _ _ _ H). Qed.

Lemma calculateMedian_within (sorted : list Q) (lo hi : Q) :
  Sorted Qle sorted -> sorted <> [] ->
  (forall x, In x sorted -> (lo <= x)%Q /\ (x <= hi)%Q) ->
  (lo <= calculateMedian sorted)%Q /\ (calculateMedian sorted <= hi)%Q.
Proof.
  intros Hsorted Hne Hall.
  apply (Sorted_StronglySorted Qle_trans) in Hsorted.
  destruct (calculateMedian_middle sorted Hne)
    as [k [[_ Hk] | (_ & a & b & Ha & Hb & ->)]].
  - apply Hall, (lookup_In _ _ _ Hk).
  - destruct (mean_between a b (sorted_neighbours sorted Hsorted k a b Ha Hb))
      as [Hlo Hhi].
    destruct (Hall a (lookup_In _ _ _ Ha)) as [Hla _].
    destruct (Hall b (lookup_In _ _ _ Hb)) as [_ Hbh].
    split; eapply Qle_trans; eassumption.
Qed.

(** X3. The median score [sumRegion] reports lies within any bounds that
    hold for the scores of all matching entries, provided some entry
    matches, or the call returns and the bounds include 0 (the score
    reported when none does); in particular scores on the 0-10 scale give
    a median on that scale. *)
Theorem sumRegion_median_within_scores period maps region (lo hi : Q) :
  (forall e, In e (matchingEntries period maps region) ->
             (lo <= BodyMap.painScore e)%Q /\ (BodyMap.painScore e <= hi)%Q) ->
  matchingEntries period maps region <> [] \/
  (~ inheritedOnly maps period /\ (lo <= 0)%Q /\ (0 <= hi)%Q) ->
  exists summary,
    sumRegion period maps region = Returned summary /\
    (lo <= RegionSummary.medianScore summary)%Q /\
    (RegionSummary.medianScore summary <= hi)%Q.
Proof.
  intros Hall Hcase.
  exists (regionStatistics period region (matchingEntries period maps region)).
  split.
  { apply sumRegion_returns.
    destruct Hcase as [Hne | [Hown _]]; [now apply (matching_not_inheritedOnly maps period region) | exact Hown]. }
  unfold regionStatistics.
  set (matches := matchingEntries period maps region) in *.
  destruct (Z.eqb_spec (Z.of_nat (List.length matches)) 0) as [E|E]; simpl.
  - destruct Hcase as [Hne | [_ H0]]; [|exact H0].
    destruct matches; [congruence | simpl in E; lia].
  - apply calculateMedian_within.
    + apply sortBy_sorted.
    + intros H. apply (f_equal (@List.length Q)) in H.
      rewrite sortBy_length, length_map in H. simpl in H. lia.
    + intros x Hx.
      apply (Permutation_in _ (sortBy_perm _ _)) in Hx.
      apply in_map_iff in Hx as (e & <- & He). now apply Hall.
Qed.

Lemma median_on_scale_sample :
  exists summary,
    sumRegion "Week 1" sampleWeek "Lower Back" = Returned summary /\
    (0 <= RegionSummary.medianScore summary)%Q /\
    (RegionSummary.medianScore summary <= 10)%Q.
Proof.
  apply sumRegion_median_within_scores.
  - intros e He. vm_compute in He.
    repeat (destruct He as [<- | He]; [split; discriminate|]). destruct He.
  - left. vm_compute. discriminate.
Defined.

(** ** Periods with no summary and periods with nothing logged *)

(** X20. When no entry matches and the period is not a name the mapping
    merely inherits (in particular when the period is neither a key of the
    mapping nor a name of [Object.prototype]), [sumRegion] returns
    frequency 0, median score 0, total entries 0 and no date range; and in
    every summary [sumRegion] returns, a zero frequency comes with a zero
    median score. *)
Theorem sumRegion_zero_summary period maps region :
  (~ inheritedOnly maps period ->
   matchingEntries period maps region = [] ->
   sumRegion period maps region = Returned (nothingLogged period region)) /\
  (maps !! period = None -> ~ In period objectPrototypeNames ->
   sumRegion period maps region = Returned (nothingLogged period region)) /\
  (forall summary,
     sumRegion period maps region = Returned summary ->
     RegionSummary.frequency summary = 0 ->
     RegionSummary.medianScore summary = 0%Q).
Proof.
  assert (Hempty : ~ inheritedOnly maps period ->
                   matchingEntries period maps region = [] ->
                   sumRegion period maps region = Returned (nothingLogged period region)).
  { intros Hown H. rewrite (sumRegion_returns _ _ _ Hown), H. reflexivity. }
  split; [exact Hempty|]. split.
  - intros Hnone Hname. apply Hempty.
    + intros [_ Hin]. contradiction.
    + unfold matchingEntries. rewrite Hnone. reflexivity.
  - intros summary Hs.
    destruct (inheritedOnly_or_not maps period) as [Hin | Hown].
    + rewrite (sumRegion_throws _ _ _ Hin) in Hs. discriminate.
    + rewrite (sumRegion_returns _ _ _ Hown) in Hs. injection Hs as <-.
      unfold regionStatistics.
      destruct (Z.eqb_spec (Z.of_nat (List.length (matchingEntries period maps region))) 0)
        as [E|E]; simpl; [reflexivity | intros H; contradiction].
Qed.

Lemma zero_summary_sample :
  sumRegion "Yesterday" sampleWeek "Elbow" =
    Returned (nothingLogged "Yesterday" "Elbow") /\
  sumRegion "Last Year" sampleWeek "Wrist" =
    Returned (nothingLogged "Last Year" "Wrist").
Proof.
  split.
  - apply (proj1 (sumRegion_zero_summary "Yesterday" sampleWeek "Elbow")).
    + intros [Hnone _]. vm_compute in Hnone. discriminate.
    + reflexivity.
  - apply (proj1 (proj2 (sumRegion_zero_summary "Last Year" sampleWeek "Wrist"))).
    + reflexivity.
    + intros Hin. vm_compute in Hin. intuition discriminate.
Defined.

(** X21. [sumRegion] has exactly two outcomes.  It throws, with the
    [TypeError] of the missing [filter], exactly when the period is a name
    the mapping does not own and inherits from [Object.prototype]; in every
    other case it returns a summary, which carries the requested region and
    period and a frequency that is not negative. *)
Theorem sumRegion_outcomes period maps region :
  (sumRegion period maps region = Thrown typeError <-> inheritedOnly maps period) /\
  ((exists summary, sumRegion period maps region = Returned summary) <->
   ~ inheritedOnly maps period) /\
  (forall message, sumRegion period maps region = Thrown message ->
                   message = typeError) /\
  (forall summary,
     sumRegion period maps region = Returned summary ->
     RegionSummary.region summary = region /\
     RegionSummary.period summary = period /\
     0 <= RegionSummary.frequency summary).
Proof.
  destruct (inheritedOnly_or_not maps period) as [Hin | Hown].
  - pose proof (sumRegion_throws period maps region Hin) as Ht. rewrite Ht.
    split; [tauto|]. split; [|split].
    + split; [intros [summary H]; discriminate | tauto].
    + intros message H. now injection H as <-.
    + intros summary H. discriminate.
  - pose proof (sumRegion_returns period maps region Hown) as Hr. rewrite Hr.
    split; [|split; [|split]].
    + split; [discriminate | tauto].
    + split; [tauto | intros _; eexists; reflexivity].
    + intros message H. discriminate.
    + intros summary H. injection H as <-.
      rewrite regionStatistics_frequency. unfold regionStatistics.
      destruct (Z.of_nat (List.length (matchingEntries period maps region)) =? 0);
        simpl; repeat split; lia.
Qed.

(** ** The verdict of the validator *)

Lemma valid_false_iff summary expectedRegion :
  valid (validateRegionMention summary expectedRegion) = false <->
  exists region, foreignRegion summary expectedRegion region.
Proof.
  rewrite <- hallucinated_nonempty. unfold validateRegionMention.
  destruct (List.filter _ bodyRegions) as [|r l]; simpl.
  - rewrite andb_true_r. destruct (negb _); simpl; split; congruence.
  - rewrite andb_false_r. simpl. split; [discriminate | reflexivity].
Qed.

Lemma app_nil_iff {A} (l l' : list A) : l ++ l' = [] <-> l = [] /\ l' = [].
Proof.
  split; [apply app_eq_nil | intros [-> ->]; reflexivity].
Qed.

Lemma guarded_nil {A} (b : bool) (x : A) : (if b then [x] else []) = [] <-> b = false.
Proof. destruct b; split; congruence. Qed.

(** X4. A candidate is valid exactly when the four blocking checks pass:
    it mentions no foreign catalogued region, mentions the frequency,
    mentions the median score, and has at least 20 characters.  Neither the
    consistency check, nor the medical-advice check, nor the upper length
    limit, nor the period has any influence on validity. *)
Theorem validateSummary_valid_iff summary region frequency medianScore period :
  isValid (validateSummary summary region frequency medianScore period) = true <->
  (forall r, ~ foreignRegion summary region r) /\
  frequencyFound (validateNumericalData summary frequency medianScore) = true /\
  medianFound (validateNumericalData summary frequency medianScore) = true /\
  20 <= jsLength summary.
Proof.
  unfold validateSummary. cbn [isValid]. rewrite Z.eqb_eq.
  rewrite <- Nat2Z.inj_0, Nat2Z.inj_iff, length_zero_iff_nil.
  rewrite !app_nil_iff, !guarded_nil, !negb_false_iff.
  rewrite Z.ltb_ge.
  assert (Hv : valid (validateRegionMention summary region) = true <->
               forall r, ~ foreignRegion summary region r).
  { pose proof (valid_false_iff summary region) as H.
    destruct (valid (validateRegionMention summary region)).
    - split; [|reflexivity]. intros _ r Hr.
      assert (true = false) by (apply H; eauto). discriminate.
    - split; [discriminate|]. intros Hn.
      destruct (proj1 H eq_refl) as [r Hr]. destruct (Hn r Hr). }
  rewrite Hv. tauto.
Qed.

Lemma region_error_not_length summary region e :
  In e (if negb (valid (validateRegionMention summary region))
        then [default "undefined" (error (validateRegionMention summary region))]
        else []) ->
  startsWith e "Summary" = false.
Proof.
  destruct (negb _); [|intros []]. intros [<- | []].
  destruct (regionError_shape summary region) as [-> | [rest ->]]; reflexivity.
Qed.

(** X5. The length rules of the validator: the error about a too short
    summary is raised exactly for texts of fewer than 20 characters (the
    empty text included), which are therefore never valid; the warning
    about a verbose summary is given exactly for texts of more than 1000
    characters and is never an error. *)
Theorem validateSummary_length_rules summary region frequency medianScore period :
  (In "Summary too short (less than 20 characters)"
      (errors (validateSummary summary region frequency medianScore period)) <->
   jsLength summary < 20) /\
  (jsLength summary < 20 ->
   isValid (validateSummary summary region frequency medianScore period) = false) /\
  (In "Summary might be too verbose (over 1000 characters)"
      (warnings (validateSummary summary region frequency medianScore period)) <->
   1000 < jsLength summary) /\
  ~ In "Summary might be too verbose (over 1000 characters)"
       (errors (validateSummary summary region frequency medianScore period)).
Proof.
  unfold validateSummary. cbn [isValid errors warnings].
  split; [|split; [|split]].
  - rewrite !in_app_iff. split.
    + intros [H | [H | [H | H]]].
      * apply region_error_not_length in H. discriminate H.
      * destruct (negb (frequencyFound _)); [|destruct H].
        destruct H as [H | []]. apply (f_equal (fun s => startsWith s "Summary")) in H.
        discriminate H.
      * destruct (negb (medianFound _)); [|destruct H].
        destruct H as [H | []]. apply (f_equal (fun s => startsWith s "Summary")) in H.
        discriminate H.
      * destruct (Z.ltb_spec (jsLength summary) 20); [assumption | destruct H].
    + intros H. right; right; right.
      destruct (Z.ltb_spec (jsLength summary) 20); [now left | lia].
  - intros H. apply Z.eqb_neq. rewrite !length_app.
    destruct (Z.ltb_spec (jsLength summary) 20); [simpl; lia | lia].
  - rewrite !in_app_iff. split.
    + intros [H | [H | H]].
      * destruct (_ >? 0); [|destruct H].
        apply consistency_prefix in H. discriminate H.
      * destruct (found _); [|destruct H].
        destruct H as [H | []]. apply (f_equal (fun s => startsWith s "Summary")) in H.
        discriminate H.
      * destruct (Z.gtb_spec (jsLength summary) 1000); [lia | destruct H].
    + intros H. right; right.
      destruct (Z.gtb_spec (jsLength summary) 1000); [now left | lia].
  - rewrite !in_app_iff. intros [H | [H | [H | H]]].
    + destruct (negb (valid _)); [|destruct H]. destruct H as [H | []].
      destruct (regionError_shape summary region) as [E | [rest E]];
        rewrite E in H; apply (f_equal (fun s => startsWith s "Summary m")) in H;
        discriminate H.
    + destruct (negb (frequencyFound _)); [|destruct H].
      destruct H as [H | []]. apply (f_equal (fun s => startsWith s "Summary")) in H.
      discriminate H.
    + destruct (negb (medianFound _)); [|destruct H].
      destruct H as [H | []]. apply (f_equal (fun s => startsWith s "Summary")) in H.
      discriminate H.
    + destruct (jsLength summary <? 20); [|destruct H].
      destruct H as [H | []]. discriminate H.
Qed.

(** ** Medical advice *)

(** X6. The medical-advice check reports exactly the catalogue phrases
    that occur in the text ignoring case; the verdict carries a warning
    naming them exactly when there is at least one, and no error ever
    stems from this check. *)
Theorem checkForMedicalAdvice_reports summary region frequency medianScore period :
  (forall phrase,
     In phrase (phrases (checkForMedicalAdvice summary)) <->
     In phrase medicalAdvicePhrases /\ occursIn phrase (toLowerCase summary)) /\
  (found (checkForMedicalAdvice summary) = true <->
   exists phrase,
     In phrase medicalAdvicePhrases /\ occursIn phrase (toLowerCase summary)) /\
  ((exists w,
      In w (warnings (validateSummary summary region frequency medianScore period)) /\
      startsWith w "Possible medical advice detected: " = true) <->
   found (checkForMedicalAdvice summary) = true) /\
  (forall e,
     In e (errors (validateSummary summary region frequency medianScore period)) ->
     startsWith e "Possible medical advice detected: " = false).
Proof.
  assert (Hphr : forall phrase,
     In phrase (phrases (checkForMedicalAdvice summary)) <->
     In phrase medicalAdvicePhrases /\ occursIn phrase (toLowerCase summary)).
  { intros phrase. unfold checkForMedicalAdvice. cbn [phrases].
    rewrite filter_In, includes_spec. reflexivity. }
  assert (Hfound : found (checkForMedicalAdvice summary) = true <->
     exists phrase,
       In phrase medicalAdvicePhrases /\ occursIn phrase (toLowerCase summary)).
  { split.
    - intros H.
      assert (Hx : exists x, In x (phrases (checkForMedicalAdvice summary))).
      { unfold checkForMedicalAdvice in *. cbn [found phrases] in *.
        destruct (List.filter _ medicalAdvicePhrases) as [|x l];
          [discriminate H | exists x; left; reflexivity]. }
      destruct Hx as [x Hx]. exists x. now apply Hphr.
    - intros [phrase Hp]. apply Hphr in Hp.
      unfold checkForMedicalAdvice in *. cbn [found phrases] in *.
      destruct (List.filter _ medicalAdvicePhrases); [destruct Hp | reflexivity]. }
  split; [exact Hphr|]. split; [exact Hfound|]. split.
  - unfold validateSummary. cbn [warnings]. split.
    + intros (w & Hw & Hp). rewrite !in_app_iff in Hw.
      destruct Hw as [Hw | [Hw | Hw]].
      * destruct (_ >? 0); [|destruct Hw].
        apply consistency_prefix in Hw.
        apply startsWith_spec in Hp as [post1 ->].
        apply startsWith_spec in Hw as [post2 Hw]. discriminate Hw.
      * destruct (found (checkForMedicalAdvice summary)); [reflexivity | destruct Hw].
      * destruct (_ >? 1000); [|destruct Hw]. destruct Hw as [<- | []]. discriminate Hp.
    + intros H. rewrite H. eexists. split.
      * rewrite !in_app_iff. right. left. left. reflexivity.
      * reflexivity.
  - unfold validateSummary. cbn [errors]. intros e. rewrite !in_app_iff.
    intros [H | [H | [H | H]]].
    + destruct (negb (valid _)); [|destruct H]. destruct H as [<- | []].
      destruct (regionError_shape summary region) as [-> | [rest ->]]; reflexivity.
    + destruct (negb (frequencyFound _)); [|destruct H].
      destruct H as [<- | []]. reflexivity.
    + destruct (negb (medianFound _)); [|destruct H].
      destruct H as [<- | []]. reflexivity.
    + destruct (jsLength summary <? 20); [|destruct H].
      destruct H as [<- | []]. reflexivity.
Qed.

Example medical_advice_sample :
  warnings (validateSummary
    "Your neck hurt 3 times (6/10). You should see a doctor; this could be a sign of strain."
    "Neck" 3 6 "Last Week") =
  [ "Possible medical advice detected: " +:+ dquote +:+ "should see a doctor" +:+ dquote
    +:+ ", " +:+ dquote +:+ "could be a sign of" +:+ dquote ] /\
  isValid (validateSummary
    "Your neck hurt 3 times (6/10). You should see a doctor; this could be a sign of strain."
    "Neck" 3 6 "Last Week") = true.
Proof. vm_compute. split; reflexivity. Qed.

(** ** Mentions of the median score *)

Lemma fracDigits_lowercase (fuel : nat) :
  forall rem den, toLowerCase (fracDigits fuel rem den) = fracDigits fuel rem den.
Proof.
  induction fuel as [|fuel IH]; intros rem den; simpl; [reflexivity|].
  destruct (rem =? 0); [reflexivity|].
  now rewrite toLowerCase_app, Z_toString_lowercase, IH.
Qed.

Lemma Q_toString_lowercase (x : Q) : toLowerCase (Q_toString x) = Q_toString x.
Proof.
  unfold Q_toString. rewrite !toLowerCase_app, Z_toString_lowercase.
  f_equal; [destruct (Qnum x <? 0); reflexivity|]. f_equal.
  destruct (_ =? 0); [reflexivity|].
  now rewrite toLowerCase_app, fracDigits_lowercase.
Qed.

Lemma Q_toString_nonempty (x : Q) : Q_toString x <> "".
Proof.
  unfold Q_toString. destruct (Qnum x <? 0).
  - rewrite append_cons. discriminate.
  - rewrite append_nil. apply append_nonempty, Z_toString_nonempty.
Qed.

Lemma numberWordAt_In (n : Z) (word : string) :
  numberWordAt n = Some word -> In word numberWords.
Proof.
  unfold numberWordAt. destruct (n <? 0); [discriminate|]. apply lookup_In.
Qed.

(** X7. The median sub-check of [validateNumericalData] passes exactly
    when the lower-cased text contains the printed median score, or the
    printed rounding of it to the nearest integer (halves upwards), or the
    number word ("zero" to "ten") of that rounding; the forms with "/10"
    and "out of 10" add nothing, since they begin with those digits. *)
Theorem validateNumericalData_median summary frequency medianScore :
  medianFound (validateNumericalData summary frequency medianScore) = true <->
  occursIn (Q_toString medianScore) (toLowerCase summary) \/
  occursIn (Z_toString (Math_round medianScore)) (toLowerCase summary) \/
  exists word,
    numberWordAt (Math_round medianScore) = Some word /\
    occursIn word (toLowerCase summary).
Proof.
  unfold validateNumericalData. cbn [medianFound]. cbv zeta.
  pose proof (Q_toString_nonempty medianScore) as Hq.
  pose proof (Z_toString_nonempty (Math_round medianScore)) as Hz.
  rewrite !filterBoolean_cons
    by first [assumption | apply append_nonempty; assumption].
  cbn [existsb]. rewrite !orb_true_iff. split.
  - assert (HQ : includes (toLowerCase summary) (toLowerCase (Q_toString medianScore))
                  = true -> occursIn (Q_toString medianScore) (toLowerCase summary))
      by (rewrite Q_toString_lowercase; apply includes_spec).
    assert (HZ : includes (toLowerCase summary)
                   (toLowerCase (Z_toString (Math_round medianScore))) = true ->
                 occursIn (Z_toString (Math_round medianScore)) (toLowerCase summary))
      by (rewrite Z_toString_lowercase; apply includes_spec).
    intros [H | [H | [H | [H | [H | [H | H]]]]]].
    { left. exact (HQ H). }
    { right. left. exact (HZ H). }
    { left. exact (HQ (includes_longer _ (Q_toString medianScore) "/10" H)). }
    { right. left.
      exact (HZ (includes_longer _ (Z_toString (Math_round medianScore)) "/10" H)). }
    { left. exact (HQ (includes_longer _ (Q_toString medianScore) " out of 10" H)). }
    { right. left.
      exact (HZ (includes_longer _ (Z_toString (Math_round medianScore))
                                 " out of 10" H)). }
    right. right.
    destruct (numberWordAt (Math_round medianScore)) as [word|] eqn:Ew;
      [|discriminate H].
    exists word. split; [reflexivity|].
    destruct (numberWords_plain word (numberWordAt_In _ _ Ew)) as [Hne Hlow].
    rewrite (filterBoolean_cons _ _ Hne) in H. simpl in H.
    rewrite orb_false_r, Hlow in H. now apply includes_spec.
  - intros [H | [H | (word & Ew & H)]].
    + left. rewrite Q_toString_lowercase. now apply includes_spec.
    + right. left. rewrite Z_toString_lowercase. now apply includes_spec.
    + do 6 right.
      destruct (numberWords_plain word (numberWordAt_In _ _ Ew)) as [Hne Hlow].
      rewrite Ew, (filterBoolean_cons _ _ Hne). simpl.
      rewrite Hlow. apply includes_spec in H. now rewrite H.
Qed.

Example median_rounding_accepted :
  medianFound (validateNumericalData "Median around 7 this week." 3 (13 # 2)) = true /\
  medianFound (validateNumericalData "Median of seven this week." 3 (13 # 2)) = true /\
  medianFound (validateNumericalData "Median of 6.5 this week." 3 (13 # 2)) = true /\
  medianFound (validateNumericalData "Median of six this week." 3 (13 # 2)) = false.
Proof. vm_compute. repeat split. Qed.

(** ** The fallback text and the numeric check *)

Lemma medianFound_exact summary frequency medianScore :
  occursIn (Q_toString medianScore) (toLowerCase summary) ->
  medianFound (validateNumericalData summary frequency medianScore) = true.
Proof.
  intros H. unfold validateNumericalData. cbn [medianFound]. cbv zeta.
  rewrite (filterBoolean_cons _ _ (Q_toString_nonempty medianScore)).
  cbn [existsb]. rewrite Q_toString_lowercase.
  apply includes_spec in H. now rewrite H.
Qed.

Lemma occursIn_middle (a x b : string) : occursIn x (a +:+ x +:+ b).
Proof. exists a, b. reflexivity. Qed.

(** X8. For a non-zero frequency the fallback text mentions both numbers
    in a form the validator recognises: run on the fallback text with the
    same inputs, [validateNumericalData] finds the frequency and the
    median score, whatever the period and the region are. *)
Theorem fallback_mentions_both_numbers period region frequency medianScore :
  frequency <> 0 ->
  frequencyFound
    (validateNumericalData (generateFallbackSummary period region frequency medianScore)
                           frequency medianScore) = true /\
  medianFound
    (validateNumericalData (generateFallbackSummary period region frequency medianScore)
                           frequency medianScore) = true.
Proof.
  intros Hne. unfold generateFallbackSummary.
  destruct (Z.eqb_spec frequency 0) as [E|_]; [contradiction|]. split.
  - apply frequencyFound_digits.
    set (before := "During " +:+ toLowerCase period +:+ ", you recorded ").
    set (after := " pain " +:+ (if frequency =? 1 then "entry" else "entries")
                  +:+ " for your " +:+ toLowerCase region
                  +:+ ", with a median pain level of " +:+ Q_toString medianScore
                  +:+ "/10 (" +:+ getSeverityDescription medianScore
                  +:+ "). This data helps track your pain patterns over time.").
    replace (toLowerCase _)
      with (toLowerCase before +:+ Z_toString frequency +:+ toLowerCase after).
    + apply occursIn_middle.
    + rewrite <- Z_toString_lowercase at 1. rewrite <- !toLowerCase_app.
      f_equal. unfold before, after. now rewrite !append_assoc.
  - apply medianFound_exact.
    set (before := "During " +:+ toLowerCase period +:+ ", you recorded "
                   +:+ Z_toString frequency +:+ " pain "
                   +:+ (if frequency =? 1 then "entry" else "entries")
                   +:+ " for your " +:+ toLowerCase region
                   +:+ ", with a median pain level of ").
    set (after := "/10 (" +:+ getSeverityDescription medianScore
                  +:+ "). This data helps track your pain patterns over time.").
    replace (toLowerCase _)
      with (toLowerCase before +:+ Q_toString medianScore +:+ toLowerCase after).
    + apply occursIn_middle.
    + rewrite <- Q_toString_lowercase at 1. rewrite <- !toLowerCase_app.
      f_equal. unfold before, after. now rewrite !append_assoc.
Qed.

Lemma fallback_mentions_both_numbers_sample :
  frequencyFound
    (validateNumericalData (generateFallbackSummary "Last Week" "Neck" 3 (13 # 2))
                           3 (13 # 2)) = true /\
  medianFound
    (validateNumericalData (generateFallbackSummary "Last Week" "Neck" 3 (13 # 2))
                           3 (13 # 2)) = true.
Proof. apply fallback_mentions_both_numbers. discriminate. Defined.

(** ** The other bands of the consistency check *)

Lemma frequency_high_patterns :
  frequencyDescriptors.high = map bounded highFrequencyWords.
Proof. reflexivity. Qed.

Lemma severity_low_patterns : severityDescriptors.low = map bounded lowSeverityWords.
Proof. reflexivity. Qed.

Lemma warnIfAny_length (descs : list string) (s warning : string) :
  (List.length (warnIfAny descs s warning) <= 1)%nat.
Proof. unfold warnIfAny. destruct (existsb _ descs); simpl; lia. Qed.

(** X9. The remaining rules of the consistency check.  With a frequency
    of 2 or less the frequency warning is given exactly when a
    high-frequency descriptor ("high", "frequent", "often", "many",
    "numerous", "considerable") stands in the text as a whole word; with a
    median score of 7 or more the severity warning is given exactly when a
    low-severity descriptor ("mild", "slight", "minimal", "minor") does.
    In the middle bands (frequency 3 to 6, median strictly between 3 and 7)
    the check says nothing whatever the text, and it never gives more than
    two warnings. *)
Theorem validateLogicalConsistency_other_bands summary frequency medianScore :
  (frequency <= 2 ->
   In (frequencyWarning frequency "low" "high")
      (validateLogicalConsistency summary frequency medianScore) <->
   exists word, In word highFrequencyWords /\ standsAlone word summary) /\
  ((7 <= medianScore)%Q ->
   In (severityWarning medianScore "severe" "mild")
      (validateLogicalConsistency summary frequency medianScore) <->
   exists word, In word lowSeverityWords /\ standsAlone word summary) /\
  (2 < frequency < 7 -> (3 < medianScore)%Q -> (medianScore < 7)%Q ->
   validateLogicalConsistency summary frequency medianScore = []) /\
  (List.length (validateLogicalConsistency summary frequency medianScore) <= 2)%nat.
Proof.
  rewrite validateLogicalConsistency_parts.
  split; [|split; [|split]].
  - intros Hf. rewrite in_app_iff. unfold frequencyPart.
    destruct (Z.leb_spec frequency 2) as [_|Hgt]; [|lia].
    rewrite frequency_high_patterns.
    rewrite <- (warnIfAny_bounded highFrequencyWords summary
                  (frequencyWarning frequency "low" "high") eq_refl).
    split; [intros [H | H]; [exact H|] | now left].
    apply severityPart_prefix in H. discriminate H.
  - intros Hm. rewrite in_app_iff. unfold severityPart at 1.
    destruct (Qle_bool medianScore 3) eqn:E3.
    { apply Qle_bool_iff in E3.
      assert (H73 : (7 <= 3)%Q) by (eapply Qle_trans; eassumption).
      unfold Qle in H73. simpl in H73. lia. }
    apply Qle_bool_iff in Hm. rewrite Hm.
    rewrite severity_low_patterns.
    rewrite <- (warnIfAny_bounded lowSeverityWords summary
                  (severityWarning medianScore "severe" "mild") eq_refl).
    split; [intros [H | H]; [|exact H] | now right].
    apply frequencyPart_prefix in H. discriminate H.
  - intros Hf Hlo Hhi. unfold frequencyPart, severityPart.
    destruct (Z.leb_spec frequency 2) as [Hle|_]; [lia|].
    rewrite Z.geb_leb. destruct (Z.leb_spec 7 frequency) as [Hge|_]; [lia|].
    destruct (Qle_bool medianScore 3) eqn:E3.
    { apply Qle_bool_iff in E3. destruct (Qlt_not_le _ _ Hlo E3). }
    destruct (Qle_bool 7 medianScore) eqn:E7.
    { apply Qle_bool_iff in E7. destruct (Qlt_not_le _ _ Hhi E7). }
    reflexivity.
  - rewrite length_app.
    assert (Hf : (List.length (frequencyPart summary frequency) <= 1)%nat).
    { unfold frequencyPart. destruct (frequency <=? 2); [apply warnIfAny_length|].
      destruct (frequency >=? 7); [apply warnIfAny_length | simpl; lia]. }
    assert (Hs : (List.length (severityPart summary medianScore) <= 1)%nat).
    { unfold severityPart. destruct (Qle_bool medianScore 3); [apply warnIfAny_length|].
      destruct (Qle_bool 7 medianScore); [apply warnIfAny_length | simpl; lia]. }
    lia.
Qed.

Example consistency_minimal_counts_twice :
  validateLogicalConsistency "Pain was minimal: 9 entries, median 8/10." 9 8 =
  [ frequencyWarning 9 "high" "low"; severityWarning 8 "severe" "mild" ].
Proof. vm_compute. reflexivity. Qed.

(** ** Every run of the retry loop *)

Lemma failureSchedule_S service retryDelay first attempt count :
  failureSchedule service retryDelay first attempt (S count) =
  backoff service retryDelay first attempt
    :: failureSchedule service retryDelay (S first) (attempt + 1) count.
Proof.
  unfold failureSchedule. cbn [seq map]. rewrite <- seq_shift, map_map.
  rewrite Nat.add_0_r, Z.add_0_r. f_equal. apply map_ext. intros i.
  f_equal; lia.
Qed.

Lemma candidate_or_error service k :
  (exists text, candidateAt service k = Some text /\ errorAt service k = None) \/
  (candidateAt service k = None /\ exists message, errorAt service k = Some message).
Proof.
  unfold candidateAt, errorAt. destruct (service k) as [response|message].
  - destruct (String.eqb (trim response) ""); [right | left]; eauto.
  - right. eauto.
Qed.

Section Runs.

Variable service : nat -> ServiceReply.
Variable self : Generator.t.
Variables (period region : string) (frequency : Z) (medianScore : Q).
Variable options : SummaryOptions.t.

Local Abbreviation maxRetries := (effectiveMaxRetries self options).
Local Abbreviation retryDelay := (effectiveRetryDelay self options).
Local Abbreviation fallbackEnabled := (notFalse (SummaryOptions.fallbackEnabled options)).
Local Abbreviation enableValidation := (notFalse (SummaryOptions.enableValidation options)).
Local Abbreviation fallback := (generateFallbackSummary period region frequency medianScore).
Local Abbreviation verdict text :=
  (validateSummary text region frequency medianScore period).
Local Abbreviation attempt_ :=
  (oneAttempt service self period region frequency medianScore options).
Local Abbreviation loop :=
  (attemptLoop service self period region frequency medianScore options).
Local Abbreviation fails :=
  (attemptFails service enableValidation period region frequency medianScore).
Local Abbreviation failedWith message :=
  ("Failed to generate summary after " +:+ Z_toString maxRetries
   +:+ " attempts: " +:+ message).

Lemma callGeminiAPI_error (w : World) (message : string) :
  errorAt service (requests w) = Some message ->
  callGeminiAPI service w = (Thrown message, sent w).
Proof.
  unfold errorAt, callGeminiAPI.
  destruct (service (requests w)) as [response|message'].
  - destruct (String.eqb (trim response) ""); [|discriminate].
    intros H. injection H as <-. reflexivity.
  - intros H. injection H as <-. reflexivity.
Qed.

(** What one turn does when the request ends with an error. *)
Lemma oneAttempt_error (attempt : Z) (w : World) (message : string) :
  errorAt service (requests w) = Some message ->
  attempt_ attempt w =
  if attempt =? maxRetries then
    if fallbackEnabled then (Returned (Return fallback), sent w)
    else (Thrown (failedWith message), sent w)
  else (Returned Continue, delayed (sent w) (retryDelay * attempt)).
Proof.
  intros He. unfold oneAttempt, tryCatch, tryBlock, bind.
  rewrite (callGeminiAPI_error w message He).
  unfold catchBlock. destruct (attempt =? maxRetries); [|reflexivity].
  destruct fallbackEnabled; reflexivity.
Qed.

(** The outcome of the loop from any attempt on, for any service. *)
Lemma attemptLoop_outcome (r : nat) :
  forall (attempt : Z) (w : World) out w',
    attempt + Z.of_nat r = maxRetries + 1 -> (1 <= r)%nat ->
    loop r attempt w = (out, w') ->
    (requests w < requests w' <= requests w + r)%nat /\
    (List.length (waited w') + requests w + 1 =
     List.length (waited w) + requests w')%nat /\
    match out with
    | Returned text =>
        (fallbackEnabled = true /\ text = fallback) \/
        (candidateAt service (requests w' - 1) = Some text /\
         (enableValidation = true -> fallbackEnabled = true ->
          errors (verdict text) = []))
    | Thrown message =>
        fallbackEnabled = false /\
        exists cause, errorAt service (requests w' - 1) = Some cause /\
                      message = failedWith cause
    end.
Proof.
  induction r as [|r IH]; intros attempt w out w' Hinv Hr Hrun; [lia|].
  rewrite attemptLoop_step in Hrun.
  assert (Hcont : forall ms,
    attempt <> maxRetries ->
    loop r (attempt + 1) (delayed (sent w) ms) = (out, w') ->
    (requests w < requests w' <= requests w + S r)%nat /\
    (List.length (waited w') + requests w + 1 =
     List.length (waited w) + requests w')%nat /\
    match out with
    | Returned text =>
        (fallbackEnabled = true /\ text = fallback) \/
        (candidateAt service (requests w' - 1) = Some text /\
         (enableValidation = true -> fallbackEnabled = true ->
          errors (verdict text) = []))
    | Thrown message =>
        fallbackEnabled = false /\
        exists cause, errorAt service (requests w' - 1) = Some cause /\
                      message = failedWith cause
    end).
  { intros ms Hne H. apply IH in H; [|lia|lia].
    destruct H as (Hreq & Hwait & Hout). cbn [delayed sent requests waited] in *.
    rewrite length_app in Hwait. simpl in Hwait.
    split; [lia|]. split; [lia | exact Hout]. }
  assert (Hlast : (requests (sent w) - 1)%nat = requests w) by (simpl; lia).
  destruct (candidate_or_error service (requests w))
    as [(text & Hc & _) | (Hc & cause & He)].
  - rewrite (oneAttempt_candidate _ _ _ _ _ _ _ attempt w text Hc) in Hrun.
    destruct (enableValidation && negb (isValid (verdict text)))%bool eqn:Ev.
    + destruct (Z.ltb_spec attempt maxRetries) as [Hlt|Hge].
      * apply (Hcont retryDelay); [lia | exact Hrun].
      * destruct fallbackEnabled eqn:Ef; injection Hrun as <- <-;
          (split; [simpl; lia|]); (split; [simpl; lia|]).
        -- left. split; reflexivity.
        -- right. rewrite Hlast. split; [exact Hc | congruence].
    + injection Hrun as <- <-. split; [simpl; lia|]. split; [simpl; lia|].
      right. rewrite Hlast. split; [exact Hc|]. intros Hv _.
      rewrite Hv in Ev. cbn [andb] in Ev. apply negb_false_iff in Ev.
      now apply isValid_iff in Ev.
  - rewrite (oneAttempt_error attempt w cause He) in Hrun.
    destruct (Z.eqb_spec attempt maxRetries) as [Heq|Hne].
    + destruct fallbackEnabled eqn:Ef; injection Hrun as <- <-;
        (split; [simpl; lia|]); (split; [simpl; lia|]).
      * left. split; reflexivity.
      * split; [reflexivity|]. exists cause. rewrite Hlast. split; [exact He | reflexivity].
    + apply (Hcont (retryDelay * attempt)); [exact Hne | exact Hrun].
Qed.

(** A run of failed attempts: the loop moves on, waiting after each. *)
Lemma attemptLoop_skips_failures (count : nat) :
  forall (attempt : Z) (w : World) (rest : nat),
    attempt + Z.of_nat count <= maxRetries ->
    (forall i, (i < count)%nat -> fails (requests w + i)%nat) ->
    loop (count + rest) attempt w =
    loop rest (attempt + Z.of_nat count)
         {| requests := requests w + count;
            waited := waited w
                      ++ failureSchedule service retryDelay (requests w) attempt count |}.
Proof.
  induction count as [|count IH]; intros attempt w rest Hle Hfail.
  - cbn [Nat.add failureSchedule seq map]. rewrite Nat.add_0_r, app_nil_r, Z.add_0_r.
    destruct w; reflexivity.
  - change (S count + rest)%nat with (S (count + rest)).
    rewrite attemptLoop_step.
    assert (H0 : fails (requests w)).
    { specialize (Hfail 0%nat). rewrite Nat.add_0_r in Hfail. apply Hfail. lia. }
    assert (Hstep : attempt_ attempt w =
                    (Returned Continue,
                     delayed (sent w) (backoff service retryDelay (requests w) attempt))).
    { unfold attemptFails, backoff in *.
      destruct (candidate_or_error service (requests w))
        as [(text & Hc & _) | (Hc & cause & He)]; rewrite Hc in *.
      - destruct H0 as [Hv Herr].
        rewrite (oneAttempt_candidate _ _ _ _ _ _ _ attempt w text Hc), Hv.
        rewrite (isValid_false _ _ _ _ text Herr). cbn [andb negb].
        destruct (Z.ltb_spec attempt maxRetries); [reflexivity | lia].
      - rewrite (oneAttempt_error attempt w cause He).
        destruct (Z.eqb_spec attempt maxRetries); [lia | reflexivity]. }
    rewrite Hstep, IH.
    + rewrite failureSchedule_S. cbn [delayed sent requests waited].
      rewrite <- app_assoc. cbn [app].
      replace (attempt + 1 + Z.of_nat count) with (attempt + Z.of_nat (S count)) by lia.
      replace (S (requests w) + count)%nat with (requests w + S count)%nat by lia.
      reflexivity.
    + lia.
    + intros i Hi. cbn [delayed sent requests].
      replace (S (requests w) + i)%nat with (requests w + S i)%nat by lia.
      apply Hfail. lia.
Qed.

End Runs.

Lemma summariseWithAI_no_budget service self period region frequency medianScore
    options (w : World) :
  effectiveMaxRetries self options <= 0 ->
  summariseWithAI service self period region frequency medianScore options w =
  (Thrown "Unexpected error in summariseWithAI", w).
Proof.
  intros H. unfold summariseWithAI.
  replace (Z.to_nat (effectiveMaxRetries self options)) with 0%nat by lia.
  reflexivity.
Qed.

(** X10. Retries are bounded, for every service and every setting: a run
    never sends more requests than its attempt budget; with a budget of at
    least one it sends at least one, and it waits exactly once between two
    consecutive requests and never after the last one. *)
Theorem summariseWithAI_bounded service self period region frequency medianScore
    options :
  let final :=
    snd (summariseWithAI service self period region frequency medianScore options
                         initialWorld) in
  (requests final <= Z.to_nat (effectiveMaxRetries self options))%nat /\
  (1 <= effectiveMaxRetries self options ->
   (1 <= requests final)%nat /\
   (List.length (waited final) + 1 = requests final)%nat).
Proof.
  intros final. subst final.
  destruct (Z.le_gt_cases (effectiveMaxRetries self options) 0) as [Hle|Hgt].
  - rewrite summariseWithAI_no_budget by exact Hle. simpl. split; lia.
  - unfold summariseWithAI.
    destruct (attemptLoop _ _ _ _ _ _ _ _ 1 initialWorld) as [out w'] eqn:E.
    apply attemptLoop_outcome in E as (Hreq & Hwait & _); [|lia|lia].
    simpl in *. split; [lia|]. intros _. split; lia.
Qed.

(** X11. With the fallback enabled and a budget of at least one attempt a
    run never throws: it returns either the fallback text or the candidate
    of its last request, and when validation is enabled a returned
    candidate has no validation error. *)
Theorem summariseWithAI_never_fails_with_fallback service self period region
    frequency medianScore options :
  notFalse (SummaryOptions.fallbackEnabled options) = true ->
  1 <= effectiveMaxRetries self options ->
  exists text w',
    summariseWithAI service self period region frequency medianScore options
                    initialWorld = (Returned text, w') /\
    (text = generateFallbackSummary period region frequency medianScore \/
     (candidateAt service (requests w' - 1) = Some text /\
      (notFalse (SummaryOptions.enableValidation options) = true ->
       errors (validateSummary text region frequency medianScore period) = []))).
Proof.
  intros Hfb Hmax. unfold summariseWithAI.
  destruct (attemptLoop _ _ _ _ _ _ _ _ 1 initialWorld) as [out w'] eqn:E.
  apply attemptLoop_outcome in E as (_ & _ & Hout); [|lia|lia].
  destruct out as [text|message].
  - exists text, w'. split; [reflexivity|].
    destruct Hout as [[_ ->] | [Hc Hv]]; [now left | right].
    split; [exact Hc|]. intros H. now apply Hv.
  - destruct Hout as [Hf _]. congruence.
Qed.

Lemma never_fails_sample :
  exists text w',
    summariseWithAI (alwaysFails "network down") (constructor testConfig)
                    "Last Week" "Neck" 3 6 SummaryOptions.empty initialWorld =
    (Returned text, w') /\
    (text = generateFallbackSummary "Last Week" "Neck" 3 6 \/
     (candidateAt (alwaysFails "network down") (requests w' - 1) = Some text /\
      (notFalse (SummaryOptions.enableValidation SummaryOptions.empty) = true ->
       errors (validateSummary text "Neck" 3 6 "Last Week") = []))).
Proof.
  apply summariseWithAI_never_fails_with_fallback; [reflexivity | vm_compute; discriminate].
Defined.

(** X12. A budget below one (a negative [maxRetries], since 0 counts as
    unset) makes the run throw "Unexpected error in summariseWithAI"
    without sending any request, even though the fallback is enabled. *)
Theorem summariseWithAI_negative_budget service self period region frequency
    medianScore options (n : Z) :
  n < 0 ->
  SummaryOptions.maxRetries options = Some n ->
  summariseWithAI service self period region frequency medianScore options
                  initialWorld =
  (Thrown "Unexpected error in summariseWithAI", initialWorld).
Proof.
  intros Hn Ho. apply summariseWithAI_no_budget.
  unfold effectiveMaxRetries. rewrite Ho. simpl.
  destruct (Z.eqb_spec n 0); lia.
Qed.

Lemma negative_budget_sample :
  summariseWithAI (alwaysReplies "Your neck hurt 3 times, median 6/10.")
    (constructor defaultConfig) "Last Week" "Neck" 3 6
    {| SummaryOptions.maxRetries := Some (-1); SummaryOptions.retryDelay := None;
       SummaryOptions.fallbackEnabled := Some true;
       SummaryOptions.enableValidation := None |} initialWorld =
  (Thrown "Unexpected error in summariseWithAI", initialWorld).
Proof.
  apply (summariseWithAI_negative_budget _ _ _ _ _ _ _ (-1)); [lia | reflexivity].
Defined.

(** X13. With validation disabled the first candidate is returned as it
    is, after one request, whatever the validator would say about it. *)
Theorem summariseWithAI_without_validation service self period region frequency
    medianScore options (text : string) :
  SummaryOptions.enableValidation options = Some false ->
  1 <= effectiveMaxRetries self options ->
  candidateAt service 0 = Some text ->
  summariseWithAI service self period region frequency medianScore options
                  initialWorld =
  (Returned text, {| requests := 1; waited := [] |}).
Proof.
  intros Hv Hmax Hc. unfold summariseWithAI.
  destruct (Z.to_nat (effectiveMaxRetries self options)) as [|r] eqn:Er; [lia|].
  rewrite attemptLoop_step.
  rewrite (oneAttempt_candidate _ _ _ _ _ _ _ 1 initialWorld text Hc), Hv.
  reflexivity.
Qed.

Lemma without_validation_sample :
  errors (validateSummary "Too short." "Neck" 3 6 "Last Week") <> [] /\
  summariseWithAI (alwaysReplies "Too short.") (constructor defaultConfig)
    "Last Week" "Neck" 3 6
    {| SummaryOptions.maxRetries := None; SummaryOptions.retryDelay := None;
       SummaryOptions.fallbackEnabled := None;
       SummaryOptions.enableValidation := Some false |} initialWorld =
  (Returned "Too short.", {| requests := 1; waited := [] |}).
Proof.
  split; [vm_compute; discriminate|].
  apply summariseWithAI_without_validation; [reflexivity | vm_compute; discriminate | reflexivity].
Defined.

(** ** Runs of failed attempts *)

Lemma failureSchedule_flat service retryDelay first attempt count :
  (forall i, (i < count)%nat -> candidateAt service (first + i) <> None) ->
  failureSchedule service retryDelay first attempt count = repeat retryDelay count.
Proof.
  revert first attempt. induction count as [|count IH]; intros first attempt H.
  - reflexivity.
  - rewrite failureSchedule_S. cbn [repeat]. f_equal.
    + unfold backoff. specialize (H 0%nat). rewrite Nat.add_0_r in H.
      destruct (candidateAt service first); [reflexivity|]. destruct H; [lia | reflexivity].
    + apply IH. intros i Hi.
      replace (S first + i)%nat with (first + S i)%nat by lia. apply H. lia.
Qed.

Lemma failureSchedule_linear service retryDelay first attempt count :
  (forall i, (i < count)%nat -> candidateAt service (first + i) = None) ->
  failureSchedule service retryDelay first attempt count =
  map (fun i => retryDelay * (attempt + Z.of_nat i)) (seq 0 count).
Proof.
  intros H. unfold failureSchedule. apply map_ext_in. intros i Hi.
  apply in_seq in Hi. unfold backoff. rewrite H by lia. reflexivity.
Qed.

(** X14. With the fallback disabled, a run in which no attempt gives an
    acceptable candidate and the last request ends with an error raises
    "Failed to generate summary after N attempts: " followed by the message
    of that last error, after exactly N requests (N the budget).  When no
    request gives a candidate at all, the delays between the requests grow
    linearly: retryDelay, 2 retryDelay, ... *)
Theorem summariseWithAI_terminal_failure service self period region frequency
    medianScore options (cause : string) :
  1 <= effectiveMaxRetries self options ->
  notFalse (SummaryOptions.fallbackEnabled options) = false ->
  (forall k, (k < Z.to_nat (effectiveMaxRetries self options) - 1)%nat ->
     attemptFails service (notFalse (SummaryOptions.enableValidation options))
                  period region frequency medianScore k) ->
  errorAt service (Z.to_nat (effectiveMaxRetries self options) - 1) = Some cause ->
  summariseWithAI service self period region frequency medianScore options
                  initialWorld =
  (Thrown ("Failed to generate summary after "
           +:+ Z_toString (effectiveMaxRetries self options)
           +:+ " attempts: " +:+ cause),
   {| requests := Z.to_nat (effectiveMaxRetries self options);
      waited := failureSchedule service (effectiveRetryDelay self options) 0 1
                  (Z.to_nat (effectiveMaxRetries self options) - 1) |}) /\
  ((forall k, (k < Z.to_nat (effectiveMaxRetries self options) - 1)%nat ->
      candidateAt service k = None) ->
   failureSchedule service (effectiveRetryDelay self options) 0 1
     (Z.to_nat (effectiveMaxRetries self options) - 1) =
   map (fun i => effectiveRetryDelay self options * (1 + Z.of_nat i))
       (seq 0 (Z.to_nat (effectiveMaxRetries self options) - 1))).
Proof.
  intros Hmax Hfb Hfail Herr. split.
  - unfold summariseWithAI.
    set (count := (Z.to_nat (effectiveMaxRetries self options) - 1)%nat) in *.
    replace (Z.to_nat (effectiveMaxRetries self options)) with (count + 1)%nat
      by (unfold count; lia).
    rewrite attemptLoop_skips_failures; [| unfold count; lia | exact Hfail].
    rewrite attemptLoop_step. cbn [initialWorld requests waited app Nat.add].
    replace (1 + Z.of_nat count) with (effectiveMaxRetries self options)
      by (unfold count; lia).
    set (w := {| requests := count; waited := _ |}).
    rewrite (oneAttempt_error _ _ _ _ _ _ _ _ w cause Herr).
    rewrite Z.eqb_refl, Hfb. unfold sent, w. cbn [requests waited].
    repeat f_equal. lia.
  - intros Hnone. apply failureSchedule_linear. exact Hnone.
Qed.

Lemma terminal_failure_sample :
  summariseWithAI (alwaysFails "network down") (constructor defaultConfig)
                  "Last Week" "Neck" 3 6 noFallback initialWorld =
  (Thrown "Failed to generate summary after 3 attempts: network down",
   {| requests := 3; waited := [1000; 2000] |}).
Proof.
  apply (proj1 (summariseWithAI_terminal_failure (alwaysFails "network down")
                  (constructor defaultConfig) "Last Week" "Neck" 3 6 noFallback
                  "network down" ltac:(vm_compute; discriminate) eq_refl
                  ltac:(intros k _; exact I) eq_refl)).
Defined.

(** X15. With the fallback enabled, a run in which no attempt gives an
    acceptable candidate returns the fallback text after exactly N
    requests, for every budget N of at least one, having waited once after
    each attempt but the last: retryDelay after a rejected candidate,
    retryDelay times the attempt number after a request without candidate.
    When every request gives a (rejected) candidate the delays are all
    equal to retryDelay. *)
Theorem summariseWithAI_exhausted_schedule service self period region frequency
    medianScore options :
  1 <= effectiveMaxRetries self options ->
  notFalse (SummaryOptions.fallbackEnabled options) = true ->
  (forall k, (k < Z.to_nat (effectiveMaxRetries self options))%nat ->
     attemptFails service (notFalse (SummaryOptions.enableValidation options))
                  period region frequency medianScore k) ->
  summariseWithAI service self period region frequency medianScore options
                  initialWorld =
  (Returned (generateFallbackSummary period region frequency medianScore),
   {| requests := Z.to_nat (effectiveMaxRetries self options);
      waited := failureSchedule service (effectiveRetryDelay self options) 0 1
                  (Z.to_nat (effectiveMaxRetries self options) - 1) |}) /\
  ((forall k, (k < Z.to_nat (effectiveMaxRetries self options) - 1)%nat ->
      candidateAt service k <> None) ->
   failureSchedule service (effectiveRetryDelay self options) 0 1
     (Z.to_nat (effectiveMaxRetries self options) - 1) =
   repeat (effectiveRetryDelay self options)
          (Z.to_nat (effectiveMaxRetries self options) - 1)).
Proof.
  intros Hmax Hfb Hfail. split.
  - unfold summariseWithAI.
    set (count := (Z.to_nat (effectiveMaxRetries self options) - 1)%nat) in *.
    assert (Hlast : attemptFails service
                      (notFalse (SummaryOptions.enableValidation options))
                      period region frequency medianScore count)
      by (apply Hfail; unfold count; lia).
    replace (Z.to_nat (effectiveMaxRetries self options)) with (count + 1)%nat
      by (unfold count; lia).
    rewrite attemptLoop_skips_failures;
      [| unfold count; lia | intros i Hi; apply Hfail; unfold count in Hi; simpl; lia].
    rewrite attemptLoop_step. cbn [initialWorld requests waited app Nat.add].
    replace (1 + Z.of_nat count) with (effectiveMaxRetries self options)
      by (unfold count; lia).
    set (w := {| requests := count; waited := _ |}).
    unfold attemptFails in Hlast.
    destruct (candidate_or_error service count)
      as [(text & Hc & _) | (Hc & cause & He)]; rewrite Hc in Hlast.
    + destruct Hlast as [Hv Hbad].
      rewrite (oneAttempt_candidate _ _ _ _ _ _ _ _ w text Hc), Hv.
      rewrite (isValid_false _ _ _ _ text Hbad). cbn [andb negb].
      rewrite Z.ltb_irrefl, Hfb. unfold sent, w. cbn [requests waited].
      repeat f_equal. lia.
    + rewrite (oneAttempt_error _ _ _ _ _ _ _ _ w cause He).
      rewrite Z.eqb_refl, Hfb. unfold sent, w. cbn [requests waited].
      repeat f_equal. lia.
  - intros Hsome. apply failureSchedule_flat. exact Hsome.
Qed.

Lemma exhausted_schedule_sample :
  summariseWithAI (alwaysReplies "Too short.") (constructor defaultConfig)
                  "Last Week" "Neck" 3 6 SummaryOptions.empty initialWorld =
  (Returned (generateFallbackSummary "Last Week" "Neck" 3 6),
   {| requests := 3; waited := [1000; 1000] |}).
Proof.
  apply (proj1 (summariseWithAI_exhausted_schedule (alwaysReplies "Too short.")
                  (constructor defaultConfig) "Last Week" "Neck" 3 6
                  SummaryOptions.empty ltac:(vm_compute; discriminate) eq_refl
                  ltac:(intros k _; split; [reflexivity | vm_compute; discriminate]))).
Defined.

(** X16. Retrying works: when the first [j] attempts give nothing
    acceptable ([j] below the budget) and the next request gives a
    candidate that validation accepts (or validation is disabled), the run
    returns that candidate after exactly [j + 1] requests, having waited
    once after each failed attempt. *)
Theorem summariseWithAI_retry_then_success service self period region frequency
    medianScore options (j : nat) (text : string) :
  Z.of_nat j < effectiveMaxRetries self options ->
  (forall k, (k < j)%nat ->
     attemptFails service (notFalse (SummaryOptions.enableValidation options))
                  period region frequency medianScore k) ->
  candidateAt service j = Some text ->
  (notFalse (SummaryOptions.enableValidation options) = true ->
   errors (validateSummary text region frequency medianScore period) = []) ->
  summariseWithAI service self period region frequency medianScore options
                  initialWorld =
  (Returned text,
   {| requests := S j;
      waited := failureSchedule service (effectiveRetryDelay self options) 0 1 j |}).
Proof.
  intros Hj Hfail Hc Hok. unfold summariseWithAI.
  destruct (Z.to_nat (effectiveMaxRetries self options) - j)%nat as [|rest] eqn:Er; [lia|].
  replace (Z.to_nat (effectiveMaxRetries self options)) with (j + S rest)%nat by lia.
  rewrite attemptLoop_skips_failures; [| lia | exact Hfail].
  rewrite attemptLoop_step. cbn [initialWorld requests waited app Nat.add].
  set (w := {| requests := j; waited := _ |}).
  rewrite (oneAttempt_candidate _ _ _ _ _ _ _ _ w text Hc).
  assert (Hskip : (notFalse (SummaryOptions.enableValidation options)
                   && negb (isValid (validateSummary text region frequency
                                                     medianScore period)))%bool = false).
  { destruct (notFalse (SummaryOptions.enableValidation options)); [|reflexivity].
    cbn [andb]. apply negb_false_iff, isValid_iff, Hok. reflexivity. }
  rewrite Hskip. reflexivity.
Qed.

Lemma retry_then_success_sample :
  summariseWithAI
    (replies ["Too short."; "  "; "Your neck hurt 3 times, median 6/10."])
    (constructor defaultConfig) "Last Week" "Neck" 3 6 SummaryOptions.empty
    initialWorld =
  (Returned "Your neck hurt 3 times, median 6/10.",
   {| requests := 3; waited := [1000; 2000] |}).
Proof.
  apply (summariseWithAI_retry_then_success
           (replies ["Too short."; "  "; "Your neck hurt 3 times, median 6/10."])
           (constructor defaultConfig) "Last Week" "Neck" 3 6 SummaryOptions.empty 2).
  - vm_compute. reflexivity.
  - intros k Hk. destruct k as [|[|k]]; [| exact I | lia].
    split; [reflexivity | vm_compute; discriminate].
  - reflexivity.
  - intros _. vm_compute. reflexivity.
Defined.

(** ** The convenience entry point *)

(** X17. [generateQuickSummary] on a configuration whose [maxRetries] is
    left out or not negative never throws: it sends between one request
    and as many as the configured budget (3 when left out or 0), and
    returns either the fallback text or a candidate without validation
    errors. *)
Theorem generateQuickSummary_never_fails service period region frequency medianScore
    config :
  (forall n, Config.maxRetries config = Some n -> 0 <= n) ->
  exists text w',
    generateQuickSummary service period region frequency medianScore config
                         initialWorld = (Returned text, w') /\
    (1 <= requests w' <= Z.to_nat (orNumber (Config.maxRetries config) 3))%nat /\
    (text = generateFallbackSummary period region frequency medianScore \/
     (candidateAt service (requests w' - 1) = Some text /\
      errors (validateSummary text region frequency medianScore period) = [])).
Proof.
  intros Hcfg. unfold generateQuickSummary, summariseWithAI.
  assert (Hbudget : effectiveMaxRetries (constructor config) SummaryOptions.empty =
                    orNumber (Config.maxRetries config) 3) by reflexivity.
  assert (Hpos : 1 <= orNumber (Config.maxRetries config) 3).
  { unfold orNumber. destruct (Config.maxRetries config) as [n|]; [|lia].
    specialize (Hcfg n eq_refl). destruct (Z.eqb_spec n 0); lia. }
  destruct (attemptLoop _ _ _ _ _ _ _ _ 1 initialWorld) as [out w'] eqn:E.
  apply attemptLoop_outcome in E as (Hreq & _ & Hout); [| rewrite Hbudget; lia | rewrite Hbudget; lia].
  rewrite Hbudget in Hreq. simpl in Hreq.
  destruct out as [text|message].
  - exists text, w'. split; [reflexivity|]. split; [lia|].
    destruct Hout as [[_ ->] | [Hc Hv]]; [now left | right].
    split; [exact Hc | now apply Hv].
  - destruct Hout as [Hf _]. discriminate Hf.
Qed.

Lemma quick_summary_sample :
  exists text w',
    generateQuickSummary (alwaysFails "network down") "Last Week" "Neck" 3 6 testConfig
                         initialWorld = (Returned text, w') /\
    (1 <= requests w' <= Z.to_nat (orNumber (Config.maxRetries testConfig) 3))%nat /\
    (text = generateFallbackSummary "Last Week" "Neck" 3 6 \/
     (candidateAt (alwaysFails "network down") (requests w' - 1) = Some text /\
      errors (validateSummary text "Neck" 3 6 "Last Week") = [])).
Proof.
  apply generateQuickSummary_never_fails.
  intros n H. injection H as <-. lia.
Defined.

(** ** The request to the service *)

Lemma trimStart_head (s : string) :
  trimStart s = "" \/ exists c rest, trimStart s = String c rest /\ isSpace c = false.
Proof.
  induction s as [|c s IH]; [left; reflexivity|]. simpl.
  destruct (isSpace c) eqn:E; [exact IH|]. right. eauto.
Qed.

Lemma trimEnd_keeps_head (c : ascii) (s : string) :
  isSpace c = false -> exists rest, trimEnd (String c s) = String c rest.
Proof.
  intros H. simpl. destruct (trimEnd s); [rewrite H|]; eauto.
Qed.

Lemma trimEnd_idempotent (s : string) : trimEnd (trimEnd s) = trimEnd s.
Proof.
  induction s as [|c s IH]; [reflexivity|]. simpl.
  destruct (trimEnd s) as [|d t] eqn:E.
  - destruct (isSpace c) eqn:Ec; [reflexivity|]. simpl. now rewrite Ec.
  - change (trimEnd (String c (String d t)))
      with (match trimEnd (String d t) with
            | EmptyString => if isSpace c then EmptyString else String c EmptyString
            | t' => String c t'
            end).
    rewrite IH. reflexivity.
Qed.

Lemma trim_idempotent (s : string) : trim (trim s) = trim s.
Proof.
  unfold trim.
  assert (H : trimStart (trimEnd (trimStart s)) = trimEnd (trimStart s)).
  { destruct (trimStart_head s) as [-> | (c & rest & -> & Hc)]; [reflexivity|].
    destruct (trimEnd_keeps_head c rest Hc) as [rest' ->]. simpl. now rewrite Hc. }
  rewrite H. apply trimEnd_idempotent.
Qed.

(** X18. Every request counts, and what it yields is clean: a call of
    [callGeminiAPI] always adds one to the number of requests; the text
    it returns is the trimmed reply of the service, is never empty and has
    no white space left to trim; a blank reply and a failure of the
    service both come out as a thrown error. *)
Theorem callGeminiAPI_outcome service (w : World) :
  match callGeminiAPI service w with
  | (Returned text, w') =>
      w' = sent w /\ text <> "" /\ trim text = text /\
      exists response, service (requests w) = Reply response /\ text = trim response
  | (Thrown message, w') =>
      w' = sent w /\
      (service (requests w) = Failure message \/
       exists response, service (requests w) = Reply response /\
                        trim response = "" /\
                        message = "Empty response from Gemini API")
  end.
Proof.
  unfold callGeminiAPI. destruct (service (requests w)) as [response|message].
  - destruct (String.eqb_spec (trim response) "") as [E|E].
    + split; [reflexivity|]. right. exists response. repeat split. exact E.
    + split; [reflexivity|]. split; [exact E|]. split; [apply trim_idempotent|].
      exists response. split; reflexivity.
  - split; [reflexivity|]. left. reflexivity.
Qed.

Example trim_sample :
  trim "  Your neck hurt 3 times.  " = "Your neck hurt 3 times." /\
  candidateAt (alwaysReplies "  Your neck hurt 3 times.  ") 0 =
    Some "Your neck hurt 3 times." /\
  candidateAt (alwaysReplies "   ") 0 = None.
Proof. vm_compute. repeat split. Qed.

(** ** Edge cases of the region check *)

Lemma occursIn_empty (s : string) : occursIn "" s.
Proof. exists "", s. reflexivity. Qed.

Lemma occursIn_self (s : string) : occursIn s s.
Proof.
  exists "", "". rewrite append_nil.
  induction s as [|c s IH]; [reflexivity|]. rewrite append_cons. now f_equal.
Qed.

(** X19. Two edge cases of the region check.  With an empty expected
    region the check accepts every text, whatever regions it mentions.
    And a catalogued region is never reported when it is the expected
    region itself, ignoring case: a text naming only a region that is part
    of the expected one, or that contains it, passes the check. *)
Theorem validateRegionMention_edge_cases summary expectedRegion :
  valid (validateRegionMention summary "") = true /\
  (forall region,
     foreignRegion summary expectedRegion region ->
     region <> toLowerCase expectedRegion) /\
  ((forall region,
      In region bodyRegions -> occursIn region (toLowerCase summary) ->
      occursIn region (toLowerCase expectedRegion) \/
      occursIn (toLowerCase expectedRegion) region) ->
   valid (validateRegionMention summary expectedRegion) = true).
Proof.
  split; [|split].
  - destruct (valid (validateRegionMention summary "")) eqn:E; [reflexivity|].
    apply valid_false_iff in E as (region & _ & _ & _ & H).
    destruct H. apply occursIn_empty.
  - intros region (_ & _ & H & _) ->. apply H, occursIn_self.
  - intros Hall.
    destruct (valid (validateRegionMention summary expectedRegion)) eqn:E;
      [reflexivity|].
    apply valid_false_iff in E as (region & Hin & Hs & Hn1 & Hn2).
    destruct (Hall region Hin Hs); contradiction.
Qed.

Example region_check_superset_and_part :
  valid (validateRegionMention "Both shoulders ached: 3 entries, 6/10." "Shoulder") = true /\
  valid (validateRegionMention "Your back ached: 3 entries, 6/10." "Upper Back") = true /\
  valid (validateRegionMention "Your lower back ached: 3 entries, 6/10." "Upper Back") = false.
Proof. vm_compute. repeat split. Qed.
